(** * MineGuard: feature fusion and rockfall-risk classification

    A shallow embedding of the [/predict] pipeline of the MineGuard backend:
    [app/main.py] (coordinate parsing, feature resolution, demo overrides,
    alert formatting, the rainfall of the summary of [/weather]) and
    [app/models/predictor.py] (the classifier wrapper).

    Python floats are IEEE binary64 numbers, modelled by Rocq's primitive
    floats, so that literals such as [0.7] denote the same double as in the
    source and comparisons behave as they do there (including on NaN).
    Python dicts keyed by strings are finite maps ([gmap string _]).  External
    collaborators (weather, slope, sensor state, the pickled model) are the
    fields of a record of oracles; every call to one of them is logged. *)

From Stdlib Require Import ZArith Ascii String Floats Lia.
From stdpp Require Import gmap strings list fin_maps.

Set Warnings "-inexact-float,-register-all".

Local Open Scope Z_scope.

(** ** Binary64 arithmetic as Python uses it *)

Module PyFloat.

(** The double nearest to the rational [(-1)^s * n / d], ties to even;
    an infinity when the quotient is out of range.  This is what the
    runtime's decimal-to-double conversion, [int] to [float] conversion and
    [int / int] compute. *)
Definition nearest (s : bool) (n d : positive) : float :=
  SF2Prim (SFdiv prec emax (S754_finite s n 0) (S754_finite false d 0)).

Definition signed_zero (s : bool) : float := if s then PrimFloat.neg_zero else PrimFloat.zero.

Definition is_finite (f : float) : bool :=
  negb (is_nan f) && negb (is_infinity f).

(** [float(z)] for an [int]: [None] stands for [OverflowError]. *)
Definition of_int (z : Z) : option float :=
  match z with
  | Z0 => Some PrimFloat.zero
  | Zpos n => let f := nearest false n 1 in
              if is_infinity f then None else Some f
  | Zneg n => let f := nearest true n 1 in
              if is_infinity f then None else Some f
  end.

(** [a / b] for two [int]s, [b > 0]: [None] stands for [OverflowError]. *)
Definition int_truediv (a : Z) (b : positive) : option float :=
  match a with
  | Z0 => Some PrimFloat.zero
  | Zpos n => let f := nearest false n b in
              if is_infinity f then None else Some f
  | Zneg n => let f := nearest true n b in
              if is_infinity f then None else Some f
  end.

(** The integer nearest to [num / den] ([den > 0]), ties to even. *)
Definition round_half_even (num den : Z) : Z :=
  let q := num / den in
  let r := num mod den in
  match (2 * r ?= den) with
  | Lt => q
  | Gt => q + 1
  | Eq => if Z.even q then q else q + 1
  end.

(** The magnitude [m * 2^e] times [scale], as a fraction. *)
Definition scaled_fraction (m : positive) (e : Z) (scale : Z) : Z * Z :=
  if 0 <=? e then (Zpos m * 2 ^ e * scale, 1)
  else (Zpos m * scale, 2 ^ (- e)).

(** The double written as the decimal [(-1)^s * n / 10^ndigits]. *)
Definition of_decimal (s : bool) (n : Z) (ndigits : nat) : float :=
  match n with
  | Zpos p => nearest s p (Z.to_pos (10 ^ Z.of_nat ndigits))
  | _ => signed_zero s
  end.

(** [round(x, ndigits)] for a float [x] and [ndigits >= 0]: NaNs,
    infinities and zeros round to themselves; a finite [x] is rounded
    correctly to [ndigits] decimals (its exact binary value decides, ties to
    even) and the decimal is converted back to the nearest double. *)
Definition round (x : float) (ndigits : nat) : float :=
  match Prim2SF x with
  | S754_finite s m e =>
      let '(num, den) := scaled_fraction m e (10 ^ Z.of_nat ndigits) in
      of_decimal s (round_half_even num den) ndigits
  | _ => x
  end.

(** What "rounded to [ndigits] decimals" asks of a result [r] for [x]: a
    finite non-zero [x = (-1)^s * m * 2^e] gives the double written as the
    decimal [n / 10^ndigits], for an integer [n] nearest to
    [|x| * 10^ndigits]; any other [x] is returned as it is. *)
Definition rounded_to_decimals (ndigits : nat) (x r : float) : Prop :=
  match Prim2SF x with
  | S754_finite s m e =>
      let num := fst (scaled_fraction m e (10 ^ Z.of_nat ndigits)) in
      let den := snd (scaled_fraction m e (10 ^ Z.of_nat ndigits)) in
      exists n : Z,
        0 <= n /\ Z.abs (2 * num - 2 * n * den) <= den /\
        r = of_decimal s n ndigits
  | _ => r = x
  end.

(** [max(a, b)]: the builtin keeps [a] unless [b > a]. *)
Definition max (a b : float) : float := if (a <? b)%float then b else a.

End PyFloat.

(** ** Python values and the builtins the pipeline uses *)

Module Py.

(** JSON-shaped Python values: what [request.json()] yields and what the
    collaborators return. *)
Inductive pyval :=
| VNone
| VBool (b : bool)
| VInt (z : Z)
| VFloat (f : float)
| VStr (s : string)
| VList (l : list pyval)
| VDict (d : gmap string pyval).

(** The result of a call that may raise. *)
Inductive outcome (A : Type) :=
| Raises
| Returns (a : A).
Arguments Raises {A}.
Arguments Returns {A} a.

(** The parts of the Python runtime that are not modelled bit by bit:
    [float(s)] for a [str] ([None] stands for [ValueError]) and [str(v)]
    for a value that is not a [str]. *)
Class Runtime := {
  float_of_str : string -> option float;
  repr : pyval -> string
}.

Definition is_none (v : pyval) : bool :=
  match v with VNone => true | _ => false end.

(** [d.get(k)] and [d.get(k, dflt)]. *)
Definition dict_get (d : gmap string pyval) (k : string) : pyval :=
  default VNone (d !! k).

Definition dict_get_or (d : gmap string pyval) (k : string) (dflt : pyval) : pyval :=
  default dflt (d !! k).

(** [bool(v)]. A NaN is truthy: only a float equal to zero is falsy. *)
Definition truthy (v : pyval) : bool :=
  match v with
  | VNone => false
  | VBool b => b
  | VInt z => negb (z =? 0)
  | VFloat f => negb (f =? 0)%float
  | VStr s => negb (String.eqb s "")
  | VList l => match l with [] => false | _ => true end
  | VDict d => negb (bool_decide (d = ∅))
  end.

(** [a or b]. *)
Definition or_ (a b : pyval) : pyval := if truthy a then a else b.

(** [float(v)]: [None] stands for the exception it raises ([TypeError],
    [ValueError] or [OverflowError]). *)
Definition float_ `{Runtime} (v : pyval) : option float :=
  match v with
  | VNone => None
  | VBool b => Some (if b then 1 else 0)%float
  | VInt z => PyFloat.of_int z
  | VFloat f => Some f
  | VStr s => float_of_str s
  | VList _ => None
  | VDict _ => None
  end.

(** [str(v)]. *)
Definition str_ `{Runtime} (v : pyval) : string :=
  match v with
  | VStr s => s
  | _ => repr v
  end.

(** [v / 3]: [None] stands for [TypeError] or [OverflowError]. *)
Definition truediv3 (v : pyval) : option pyval :=
  match v with
  | VBool b => VFloat <$> PyFloat.int_truediv (if b then 1 else 0) 3
  | VInt z => VFloat <$> PyFloat.int_truediv z 3
  | VFloat f => Some (VFloat (f / 3)%float)
  | _ => None
  end.

(** [s.lower()] on ASCII letters; other bytes are left as they are. *)
Definition ascii_lower (c : ascii) : ascii :=
  let n := N_of_ascii c in
  if ((65 <=? n) && (n <=? 90))%N then ascii_of_N (n + 32) else c.

Fixpoint lower (s : string) : string :=
  match s with
  | EmptyString => EmptyString
  | String c r => String (ascii_lower c) (lower r)
  end.

(** [needle in hay] for two strings. *)
Fixpoint contains (needle hay : string) : bool :=
  String.prefix needle hay ||
  match hay with
  | EmptyString => false
  | String _ r => contains needle r
  end.

End Py.

Import Py.

(** ** External calls

    Every call the pipeline makes to a collaborator is logged, in order. *)

Inductive call :=
| FetchOpenweather (lat lon : float)
| GetSlope (lat lon : float)
| GetLatestSensorState
| PredictProba (input_vec : list float).

(** ** [app/models/predictor.py] *)

Module Predictor.

(** The exceptions [predict] raises. *)
Inductive error :=
| ModelNotLoaded                                (* RuntimeError, line 27 *)
| MissingInputFeatures (missing : list string)  (* ValueError, line 41 *)
| PredictionFailed.                             (* RuntimeError, line 71 *)

Definition is_RuntimeError (e : error) : bool :=
  match e with
  | MissingInputFeatures _ => false
  | _ => true
  end.

(** [str(e)]; the cause appended to the last message is left out. *)
Definition message (e : error) : string :=
  match e with
  | ModelNotLoaded => "Model not loaded. Please train first using train_model.py"
  | MissingInputFeatures missing =>
      String.append "Missing input features: " (String.concat ", " missing)
  | PredictionFailed => "Prediction failed due to invalid input or model error: "
  end.

Definition required_keys : list string :=
  ["rainfall"; "temperature"; "slope"; "wind_speed"; "displacement_rate"; "vibration"].

(** [[key for key in required_keys if key not in features]]. *)
Definition missing_keys (features : gmap string pyval) : list string :=
  List.filter (fun key => match features !! key with None => true | Some _ => false end)
              required_keys.

(** The six [float(features[key])], in the order of the source. *)
Definition input_vec `{Runtime} (features : gmap string pyval) : option (list float) :=
  mapM (fun key => features !! key ≫= float_) required_keys.

Definition risk_label (prob : float) : string :=
  if (0.7 <? prob)%float then "high"
  else if (0.4 <? prob)%float then "medium"
  else "low".

Definition rockfall_label (prob : float) : Z :=
  if (0.5 <? prob)%float then 1 else 0.

Definition result_of (prob : float) : gmap string pyval :=
  {[ "risk" := VStr (risk_label prob);
     "probability" := VFloat (PyFloat.round prob 3);
     "rockfall_predicted" := VInt (rockfall_label prob) ]}.

(** [predict(features)], with the module global [model] as an argument:
    [None] when loading the pickle failed, otherwise the function
    [fun v => float(model.predict_proba(v)[0][1])]. *)
Definition predict `{Runtime} (model : option (list float -> outcome float))
    (features : gmap string pyval) : (error + gmap string pyval) * list call :=
  match model with
  | None => (inl ModelNotLoaded, [])
  | Some predict_proba =>
      match missing_keys features with
      | (_ :: _) as missing => (inl (MissingInputFeatures missing), [])
      | [] =>
          match input_vec features with
          | None => (inl PredictionFailed, [])
          | Some vec =>
              match predict_proba vec with
              | Raises => (inl PredictionFailed, [PredictProba vec])
              | Returns prob => (inr (result_of prob), [PredictProba vec])
              end
          end
      end
  end.

End Predictor.

(** ** [app/main.py] *)

Module Main.

(** The collaborators of the endpoint. *)
Record World := {
  fetch_openweather : float -> float -> outcome pyval;
  get_slope : float -> float -> outcome pyval;
  get_latest_sensor_state : outcome pyval;
  model : option (list float -> outcome float)
}.

Inductive response :=
| JSONResponse (content : gmap string pyval) (status_code : Z).

Definition content_of (r : response) : gmap string pyval :=
  match r with JSONResponse c _ => c end.

Definition status_of (r : response) : Z :=
  match r with JSONResponse _ st => st end.

(** *** [GET /weather]: the rainfall of the summary (lines 69-118) *)

(** The answer of [fetch_nasa_power]: a JSON value whose dicts keep their
    entries in the order of insertion, with pairwise distinct keys as in a
    Python [dict].  The handler takes the last value of a series. *)
Inductive ordered :=
| ONone
| OBool (b : bool)
| OInt (z : Z)
| OFloat (f : float)
| OStr (s : string)
| OList (l : list ordered)
| ODict (entries : list (string * ordered)).

(** [bool(o)]. *)
Definition ordered_truthy (o : ordered) : bool :=
  match o with
  | ONone => false
  | OBool b => b
  | OInt z => negb (z =? 0)
  | OFloat f => negb (f =? 0)%float
  | OStr s => negb (String.eqb s "")
  | OList l => match l with [] => false | _ => true end
  | ODict entries => match entries with [] => false | _ => true end
  end.

Fixpoint entry_of (key : string) (entries : list (string * ordered)) : option ordered :=
  match entries with
  | [] => None
  | (k, v) :: rest => if String.eqb k key then Some v else entry_of key rest
  end.

(** [o[key]] for a [str] key: [None] stands for the [KeyError] or
    [TypeError] it raises. *)
Definition ordered_item (o : ordered) (key : string) : option ordered :=
  match o with
  | ODict entries => entry_of key entries
  | _ => None
  end.

(** [o.get(key, {})]: [None] stands for [AttributeError]. *)
Definition ordered_get (o : ordered) (key : string) : option ordered :=
  match o with
  | ODict entries => Some (default (ODict []) (entry_of key entries))
  | _ => None
  end.

(** [list(o.values())[-1]]: [None] stands for [AttributeError] or
    [IndexError]. *)
Definition ordered_last_value (o : ordered) : option ordered :=
  match o with
  | ODict entries => last (entries.*2)
  | _ => None
  end.

(** [float(o)]. *)
Definition ordered_float `{Runtime} (o : ordered) : option float :=
  match o with
  | ONone => None
  | OBool b => float_ (VBool b)
  | OInt z => float_ (VInt z)
  | OFloat f => float_ (VFloat f)
  | OStr s => float_ (VStr s)
  | OList _ => None
  | ODict _ => None
  end.

(** Lines 83-90, the rain figure inside [if owm_data:] for a dict
    [owm_data]; [None] stands for the exception of the division. *)
Definition owm_rainfall (owm_data : gmap string pyval) : option pyval :=
  rainfall ←
    match dict_get_or owm_data "rain" (VDict ∅) with
    | VDict rain_data =>
        if truthy (dict_get rain_data "1h") then Some (dict_get rain_data "1h")
        else if truthy (dict_get rain_data "3h")
             then truediv3 (dict_get_or rain_data "3h" (VInt 0))
             else Some (VInt 0)
    | _ => Some (VInt 0)
    end;
  Some (or_ rainfall (VFloat 0.0)).

(** Lines 95-107, the value the NASA branch leaves in [rainfall].  The
    [try] block ends at the first exception: a failing lookup of the
    parameters, or a truthy "T2M" entry that has no [values], leaves
    [rainfall] at [None]; what happens after the assignment to [rainfall]
    does not change it. *)
Definition nasa_rainfall (nasa_data : ordered) : ordered :=
  default ONone
    (parameter ← ordered_item nasa_data "properties" ≫= fun p => ordered_item p "parameter";
     t2m ← ordered_get parameter "T2M";
     prect ← ordered_get parameter "PRECTOTCORR";
     _ ← ordered_get parameter "WS10M";
     _ ← (if ordered_truthy t2m then ordered_last_value t2m else Some ONone);
     if ordered_truthy prect then ordered_last_value prect else Some ONone).

(** The "rainfall" entry of the summary, [as_number(rainfall)], with the
    answers of [fetch_nasa_power] and [fetch_openweather] as arguments; the
    outer [None] stands for an exception that escapes the handler. *)
Definition weather_summary_rainfall `{Runtime} (nasa_data : ordered) (owm_data : pyval)
    : option pyval :=
  if truthy owm_data then
    match owm_data with
    | VDict d =>
        (fun v => match float_ v with Some f => VFloat f | None => VNone end)
          <$> owm_rainfall d
    | _ => None
    end
  else
    Some match ordered_float (nasa_rainfall nasa_data) with
         | Some f => VFloat f
         | None => VNone
         end.

(** *** [POST /predict] *)

Definition _to_float `{Runtime} (v : pyval) (dflt : float) : float :=
  match v with
  | VNone => dflt
  | _ => match float_ v with
         | Some f => f
         | None => dflt
         end
  end.

(** Step 3: the weather snapshot, [{}] unless the fetch returned a dict. *)
Definition weather_data_of (W : World) (lat lon : float) : gmap string pyval :=
  match fetch_openweather W lat lon with
  | Returns (VDict wd) => wd
  | _ => ∅
  end.

(** Step 4: request body, then live weather, then defaults. *)
Definition base_features (body weather_data : gmap string pyval) : gmap string pyval :=
  {[ "slope" := dict_get body "slope";
     "rainfall" := dict_get_or body "rainfall"
                     (dict_get_or weather_data "rain_1h"
                        (dict_get_or body "rain" (VFloat 10.0)));
     "temperature" := dict_get_or body "temperature"
                        (dict_get_or weather_data "temp" (VFloat 25.0));
     "vibration" := dict_get_or body "vibration" VNone;
     "wind_speed" := dict_get_or body "wind_speed"
                       (dict_get_or weather_data "wind_speed" (VFloat 2.0));
     "displacement_rate" := dict_get_or body "displacement_rate" VNone ]}.

(** Step 5: the presentation overrides, keyed by rounded coordinates. *)
Definition demo_overrides : list ((float * float) * gmap string pyval) :=
  [ ((23.0, 86.5)%float,
     {[ "slope" := VInt 50; "rainfall" := VInt 70; "temperature" := VInt 35;
        "vibration" := VFloat 3.5; "wind_speed" := VFloat 10.0;
        "displacement_rate" := VFloat 0.5 ]});
    ((22.3, 84.8)%float,
     {[ "slope" := VInt 35; "rainfall" := VInt 40; "temperature" := VInt 30;
        "vibration" := VFloat 1.5; "wind_speed" := VFloat 6.0;
        "displacement_rate" := VFloat 0.3 ]});
    ((23.8, 85.0)%float,
     {[ "slope" := VInt 15; "rainfall" := VInt 10; "temperature" := VInt 25;
        "vibration" := VFloat 0.2; "wind_speed" := VFloat 2.0;
        "displacement_rate" := VFloat 0.1 ]}) ].

(** [demo_overrides[demo_key]] when [demo_key in demo_overrides]: tuple keys
    are looked up by [==] on their components. *)
Definition demo_lookup (demo_key : float * float) : option (gmap string pyval) :=
  snd <$> List.find (fun entry => (demo_key.1 =? entry.1.1)%float &&
                                  (demo_key.2 =? entry.1.2)%float)
                    demo_overrides.

Definition demo_key_of (lat lon : float) : float * float :=
  (PyFloat.round lat 1, PyFloat.round lon 1).

(** Step 6: slope from the lookup service when the request gave none. *)
Definition fill_slope (W : World) (lat lon : float) (features : gmap string pyval)
    : gmap string pyval * list call :=
  if is_none (dict_get features "slope") then
    match get_slope W lat lon with
    | Returns slope_lookup =>
        if is_none slope_lookup
        then (<["slope" := VFloat 30.0]> features, [GetSlope lat lon])
        else (<["slope" := slope_lookup]> features, [GetSlope lat lon])
    | Raises => (<["slope" := VFloat 30.0]> features, [GetSlope lat lon])
    end
  else (features, []).

(** Step 7: vibration from the latest sensor state when the request gave none. *)
Definition fill_vibration (W : World) (features : gmap string pyval)
    : gmap string pyval * list call :=
  if is_none (dict_get features "vibration") then
    match get_latest_sensor_state W with
    | Returns (VDict sensor_state) =>
        (<["vibration" := dict_get_or sensor_state "vibration" (VFloat 0.0)]> features,
         [GetLatestSensorState])
    | _ => (<["vibration" := VFloat 0.0]> features, [GetLatestSensorState])
    end
  else (features, []).

(** Step 8: displacement rate from the request's [displacement], else 1% of
    the slope, floored at 0.01; 0.01 when anything raises. *)
Definition fill_displacement_rate `{Runtime} (body features : gmap string pyval)
    : gmap string pyval :=
  if is_none (dict_get features "displacement_rate") then
    let disp := dict_get body "displacement" in
    if negb (is_none disp) then
      match float_ disp with
      | Some d => <["displacement_rate" := VFloat d]> features
      | None => <["displacement_rate" := VFloat 0.01]> features
      end
    else
      match features !! "slope" with
      | Some slope =>
          <["displacement_rate" :=
              VFloat (PyFloat.max 0.01 (0.01 * _to_float slope 30.0))]> features
      | None => <["displacement_rate" := VFloat 0.01]> features
      end
  else features.

(** Step 9: every feature coerced to a float, with its fixed fallback. *)
Definition coerce_features `{Runtime} (features : gmap string pyval) : gmap string pyval :=
  {[ "rainfall" := VFloat (_to_float (dict_get_or features "rainfall" (VFloat 10.0)) 10.0);
     "temperature" := VFloat (_to_float (dict_get_or features "temperature" (VFloat 25.0)) 25.0);
     "slope" := VFloat (_to_float (dict_get_or features "slope" (VFloat 30.0)) 30.0);
     "wind_speed" := VFloat (_to_float (dict_get_or features "wind_speed" (VFloat 2.0)) 2.0);
     "displacement_rate" :=
       VFloat (_to_float (dict_get_or features "displacement_rate" (VFloat 0.01)) 0.01);
     "vibration" := VFloat (_to_float (dict_get_or features "vibration" (VFloat 0.0)) 0.0) ]}.

(** Steps 3 to 9: the features handed to the classifier and the calls made
    to obtain them. *)
Definition resolve_features `{Runtime} (W : World) (body : gmap string pyval)
    (lat lon : float) : gmap string pyval * list call :=
  let weather_data := weather_data_of W lat lon in
  let features := base_features body weather_data in
  match demo_lookup (demo_key_of lat lon) with
  | Some override => (coerce_features override, [FetchOpenweather lat lon])
  | None =>
      let '(features, slope_calls) := fill_slope W lat lon features in
      let '(features, sensor_calls) := fill_vibration W features in
      let features := fill_displacement_rate body features in
      (coerce_features features,
       [FetchOpenweather lat lon] ++ slope_calls ++ sensor_calls)
  end.

Definition ALERT_HIGH : string :=
  "⚠️ HIGH RISK of Rockfall detected! Immediate action required.".
Definition ALERT_MODERATE : string :=
  "⚠️ MODERATE RISK — Monitor site closely.".
Definition ALERT_LOW : string :=
  "✅ LOW RISK — Conditions stable.".

(** Step 11, first half: the risk string and the probability read off the
    classifier's result. *)
Definition risk_level_of `{Runtime} (result : pyval) : string :=
  match result with
  | VDict d =>
      str_ (or_ (or_ (or_ (dict_get d "risk") (dict_get d "risk_level"))
                     (dict_get d "Risk"))
                (VStr ""))
  | _ => str_ result
  end.

Definition prob_of (result : pyval) : pyval :=
  match result with
  | VDict d => or_ (or_ (dict_get d "probability") (dict_get d "prob")) VNone
  | _ => VNone
  end.

(** The alert chosen by the risk string, when one of the words occurs in it. *)
Definition alert_of_label (risk_level_l : string) : option string :=
  if contains "high" risk_level_l then Some ALERT_HIGH
  else if contains "medium" risk_level_l || contains "moderate" risk_level_l
       then Some ALERT_MODERATE
  else if contains "low" risk_level_l then Some ALERT_LOW
  else None.

(** The fallback on the probability; [VNone] is the source's [alert = None]. *)
Definition alert_of_prob `{Runtime} (prob : pyval) : pyval :=
  if is_none prob then VNone
  else match float_ prob with
       | None => VNone
       | Some p =>
           if (0.7 <? p)%float then VStr ALERT_HIGH
           else if (0.4 <? p)%float then VStr ALERT_MODERATE
           else VStr ALERT_LOW
       end.

Definition alert_of `{Runtime} (result : pyval) : pyval :=
  match alert_of_label (lower (risk_level_of result)) with
  | Some alert => VStr alert
  | None => alert_of_prob (prob_of result)
  end.

(** Step 10: what the handler answers when [risk_score] raises. *)
Definition error_response (e : Predictor.error) : response :=
  if Predictor.is_RuntimeError e then
    JSONResponse
      {[ "error" := VStr "Model not loaded on server. Put trained model file in app/models and restart." ]}
      503
  else
    JSONResponse
      {[ "error" := VStr "Model prediction failed";
         "details" := VStr (Predictor.message e) ]}
      500.

(** Step 2: the coordinates of the request, or the 400 answer. *)
Definition parse_coordinates `{Runtime} (body : gmap string pyval)
    : response + float * float :=
  let lat := match body !! "lat" with Some v => v | None => dict_get body "latitude" end in
  let lon := match body !! "lon" with Some v => v | None => dict_get body "longitude" end in
  if is_none lat || is_none lon then
    inl (JSONResponse
           {[ "error" := VStr "Please provide 'lat' and 'lon' (or 'latitude' and 'longitude') in request body." ]}
           400)
  else
    match float_ lat, float_ lon with
    | Some lat, Some lon => inr (lat, lon)
    | _, _ =>
        inl (JSONResponse {[ "error" := VStr "Latitude and longitude must be numeric" ]} 400)
    end.

(** Steps 10 and 11: run the classifier on the resolved features and build
    the answer. *)
Definition classify_and_respond `{Runtime} (W : World) (features : gmap string pyval)
    (lookups : list call) : response * list call :=
  let '(outcome, model_calls) := Predictor.predict (model W) features in
  match outcome with
  | inl e => (error_response e, lookups ++ model_calls)
  | inr result =>
      (JSONResponse
         {[ "features" := VDict features;
            "prediction" := VDict result;
            "alert" := alert_of (VDict result) ]}
         200,
       lookups ++ model_calls)
  end.

(** The handler, from the parsed JSON body (a dict) to the content and
    status handed to [JSONResponse], with the calls made on the way. *)
Definition predict `{Runtime} (W : World) (body : gmap string pyval)
    : response * list call :=
  match parse_coordinates body with
  | inl bad_request => (bad_request, [])
  | inr (lat, lon) =>
      let '(features, lookups) := resolve_features W body lat lon in
      classify_and_respond W features lookups
  end.

End Main.

(** ** Concrete collaborators for running the model

    A runtime for inputs that hold no string: neither field is consulted on
    them.  A world whose lookups all fail and whose model answers a fixed
    probability. *)

Module Sample.

Definition runtime : Runtime :=
  {| float_of_str := fun _ => None; repr := fun _ => EmptyString |}.

Definition constant_model (prob : float) : option (list float -> outcome float) :=
  Some (fun _ => Returns prob).

Definition offline (prob : float) : Main.World :=
  {| Main.fetch_openweather := fun _ _ => Raises;
     Main.get_slope := fun _ _ => Raises;
     Main.get_latest_sensor_state := Raises;
     Main.model := constant_model prob |}.

Definition with_weather (snapshot : pyval) (prob : float) : Main.World :=
  {| Main.fetch_openweather := fun _ _ => Returns snapshot;
     Main.get_slope := fun _ _ => Raises;
     Main.get_latest_sensor_state := Raises;
     Main.model := constant_model prob |}.

Definition six_features : gmap string pyval :=
  {[ "rainfall" := VInt 35; "temperature" := VInt 24; "slope" := VInt 38;
     "wind_speed" := VInt 6; "displacement_rate" := VFloat 0.09;
     "vibration" := VFloat 2.1 ]}.

End Sample.

(** ** [GET /sensors/vibration] of [app/main.py] *)

Module Sensors.

(** The handler: the answer it returns, or [Raises] when the sensor read
    raises or returns something that has no [get]; the read is logged. *)
Definition vibration `{Runtime} (W : Main.World)
    : outcome (gmap string pyval) * list call :=
  match Main.get_latest_sensor_state W with
  | Returns (VDict state) =>
      let vib := dict_get state "vibration" in
      let vib_n :=
        if is_none vib then 0.0%float
        else match float_ vib with
             | Some f => f
             | None => 0.0%float
             end in
      (Returns {[ "vibration" := VFloat vib_n ]}, [GetLatestSensorState])
  | _ => (Raises, [GetLatestSensorState])
  end.

End Sensors.

(** The answer of [/predict] to a [RuntimeError] of the classifier
    (main.py, lines 299-301). *)
Definition model_not_loaded_answer : Main.response :=
  Main.JSONResponse
    {[ "error" := VStr "Model not loaded on server. Put trained model file in app/models and restart." ]}
    503.

(** ** The values the resolver consults *)

(** [float] rejects the value or converts it to a finite number. *)
Definition finite_or_rejected `{Runtime} (v : pyval) : bool :=
  match float_ v with
  | Some x => PyFloat.is_finite x
  | None => true
  end.

(** The keys of the request body that steps 4 and 8 read (lines 209-214 and
    276) and the keys of the weather snapshot that step 4 reads. *)
Definition request_feature_keys : list string :=
  ["slope"; "rainfall"; "rain"; "temperature"; "vibration"; "wind_speed";
   "displacement_rate"; "displacement"].

Definition snapshot_feature_keys : list string := ["rain_1h"; "temp"; "wind_speed"].

(** * Properties *)

(** ** The arithmetic on the values of the source *)

(** [round] on the values the interpreter is known for: 2.675 is below the
    decimal 2.675, 0.125 and 0.375 are exact ties, and the sign of a zero
    result is kept. *)
Example round_values :
  PyFloat.round 2.675 2 = 2.67%float /\
  PyFloat.round 0.125 2 = 0.12%float /\
  PyFloat.round 0.375 2 = 0.38%float /\
  PyFloat.round (-0.04) 1 = PrimFloat.neg_zero /\
  PyFloat.round 1e22 1 = 1e22%float /\
  PyFloat.round 23.04 1 = 23.0%float /\
  PyFloat.round 86.53 1 = 86.5%float /\
  PyFloat.round infinity 3 = infinity /\
  PyFloat.round 0.70001 3 = 0.7%float.
Proof. repeat split; vm_compute; reflexivity. Qed.

(** [float] of an [int] rounds to the nearest double and overflows from
    [2^1024 - 2^970] on; [9 / 3] is [3.0]. *)
Example int_conversions :
  PyFloat.of_int (2 ^ 53 + 1) = Some 9007199254740992%float /\
  PyFloat.of_int (2 ^ 1024 - 2 ^ 970 - 1) = Some 1.7976931348623157e308%float /\
  PyFloat.of_int (2 ^ 1024 - 2 ^ 970) = None /\
  PyFloat.int_truediv 9 3 = Some 3%float.
Proof. repeat split; vm_compute; reflexivity. Qed.

(** The displacement heuristic on the two slopes of the specification, and
    [max] on a NaN. *)
Example heuristic_values :
  PyFloat.max 0.01 (0.01 * 40) = 0.4%float /\
  PyFloat.max 0.01 (0.01 * 0.5) = 0.01%float /\
  PyFloat.max 0.01 nan = 0.01%float.
Proof. repeat split; vm_compute; reflexivity. Qed.

(** The thresholds of the classifier at the boundaries; the positive flag is
    decided on the probability before it is rounded. *)
Example classifier_values :
  Predictor.risk_label 0.7 = "medium" /\
  Predictor.risk_label 0.70001 = "high" /\
  Predictor.risk_label 0.4 = "low" /\
  Predictor.risk_label 0.55 = "medium" /\
  Predictor.rockfall_label 0.55 = 1 /\
  Predictor.rockfall_label 0.5 = 0 /\
  Predictor.rockfall_label 0.5004 = 1 /\
  PyFloat.round 0.5004 3 = 0.5%float.
Proof. repeat split; vm_compute; reflexivity. Qed.

(** ** Order on binary64 numbers *)

Section FloatOrder.

Lemma SFcompare_antisym (x y : spec_float) :
  SFcompare y x = CompOpp <$> SFcompare x y.
Proof.
  destruct x as [sx|sx| |sx mx ex], y as [sy|sy| |sy my ey]; simpl;
    try destruct sx; try destruct sy; simpl; try reflexivity.
  all: rewrite (Z.compare_antisym ex ey), !Pos.compare_cont_spec;
    rewrite (Pos.compare_antisym mx my);
    destruct (ex ?= ey); simpl; try reflexivity;
    destruct (mx ?= my)%positive; reflexivity.
Qed.

Lemma SFltb_trans (x y z : spec_float) :
  SFltb x y = true -> SFltb y z = true -> SFltb x z = true.
Proof.
  unfold SFltb.
  destruct x as [sx|sx| |sx mx ex], y as [sy|sy| |sy my ey], z as [sz|sz| |sz mz ez];
    simpl; try destruct sx; try destruct sy; try destruct sz; simpl;
    try discriminate; try reflexivity; rewrite ?Pos.compare_cont_spec.
  all: destruct (Z.compare_spec ex ey), (Z.compare_spec ey ez),
         (Z.compare_spec ex ez); simpl; try discriminate; try reflexivity; try lia.
  all: subst;
    destruct (Pos.compare_spec mx my), (Pos.compare_spec my mz),
      (Pos.compare_spec mx mz); simpl; try discriminate; try reflexivity; try lia.
Qed.

Lemma Prim2SF_not_nan (x : float) :
  is_nan x = false -> Prim2SF x <> S754_nan.
Proof.
  unfold Prim2SF. intros ->.
  destruct (is_zero x); [discriminate|].
  destruct (is_infinity x); [discriminate|].
  destruct (Z.frexp x) as [r e].
  destruct (shr_fexp _ _ _ _ _) as [shr e'].
  destruct (shr_m shr); discriminate.
Qed.

(** A number is at most [y] exactly when [y] is not below it. *)
Lemma leb_not_ltb (x y : float) :
  is_nan x = false -> is_nan y = false ->
  (x <=? y)%float = negb (y <? x)%float.
Proof.
  intros Hx%Prim2SF_not_nan Hy%Prim2SF_not_nan.
  rewrite leb_spec, ltb_spec. unfold SFleb, SFltb.
  rewrite (SFcompare_antisym (Prim2SF x) (Prim2SF y)).
  destruct (Prim2SF x) as [sx|sx| |sx mx ex], (Prim2SF y) as [sy|sy| |sy my ey];
    try congruence; simpl; try destruct sx; try destruct sy; simpl; try reflexivity.
  all: destruct (ex ?= ey); simpl; try reflexivity;
    destruct (Pos.compare_cont Eq mx my); reflexivity.
Qed.

Lemma ltb_trans (x y z : float) :
  (x <? y)%float = true -> (y <? z)%float = true -> (x <? z)%float = true.
Proof. rewrite !ltb_spec. apply SFltb_trans. Qed.

End FloatOrder.

(** ** Finite binary64 numbers *)

Section FloatFinite.

(** A number is finite when it is a zero or has a mantissa and an exponent. *)
Lemma is_finite_spec (x : float) :
  PyFloat.is_finite x = true <->
  match Prim2SF x with
  | S754_zero _ | S754_finite _ _ _ => True
  | _ => False
  end.
Proof.
  unfold PyFloat.is_finite, is_nan, is_infinity.
  rewrite !FloatAxioms.eqb_spec, abs_spec.
  change (Prim2SF infinity) with (S754_infinity false).
  destruct (Prim2SF x) as [s|s| |s m e]; unfold SFeqb, SFcompare; cbn [SFabs].
  - tauto.
  - destruct s; cbn; intuition discriminate.
  - cbn; intuition discriminate.
  - rewrite Z.compare_refl, Pos.compare_cont_refl. destruct s; cbn; tauto.
Qed.

Lemma digits2_pos_upper (m : positive) :
  Zpos m < 2 ^ Zpos (digits2_pos m).
Proof.
  induction m as [m IH|m IH|]; cbn [digits2_pos];
    rewrite ?Pos2Z.inj_succ, ?Z.pow_succ_r by lia; lia.
Qed.

Lemma digits2_pos_le (m : positive) :
  forall k, 0 <= k -> Zpos m < 2 ^ k -> Zpos (digits2_pos m) <= k.
Proof.
  induction m as [m IH|m IH|]; intros k Hk Hm; cbn [digits2_pos].
  - assert (Hk' : 0 < k).
    { destruct (Z.eq_dec k 0) as [->|]; [cbn in Hm|]; lia. }
    replace k with (Z.succ (k - 1)) in Hm by lia.
    rewrite Z.pow_succ_r in Hm by lia.
    specialize (IH (k - 1) ltac:(lia) ltac:(lia)). lia.
  - assert (Hk' : 0 < k).
    { destruct (Z.eq_dec k 0) as [->|]; [cbn in Hm|]; lia. }
    replace k with (Z.succ (k - 1)) in Hm by lia.
    rewrite Z.pow_succ_r in Hm by lia.
    specialize (IH (k - 1) ltac:(lia) ltac:(lia)). lia.
  - destruct (Z.eq_dec k 0) as [->|]; [cbn in Hm|]; lia.
Qed.

Lemma digits2_pos_mul (a b : positive) :
  Zpos (digits2_pos (a * b)) <= Zpos (digits2_pos a) + Zpos (digits2_pos b).
Proof.
  pose proof (digits2_pos_upper a) as Ha. pose proof (digits2_pos_upper b) as Hb.
  apply digits2_pos_le; [lia|].
  rewrite (Z.pow_add_r 2 (Zpos (digits2_pos a)) (Zpos (digits2_pos b))) by lia.
  rewrite Pos2Z.inj_mul.
  apply Z.mul_lt_mono_nonneg; lia.
Qed.

Lemma Zdigits2_succ (m : Z) :
  0 <= m -> Zdigits2 (m + 1) <= Zdigits2 m + 1.
Proof.
  intros Hm. destruct m as [|p|p]; [change (1 <= 1); lia| |lia].
  change (Zpos p + 1) with (Zpos (p + 1)). cbn [Zdigits2].
  apply digits2_pos_le; [lia|].
  pose proof (digits2_pos_upper p) as Hp.
  rewrite (Z.pow_add_r 2 (Zpos (digits2_pos p)) 1) by lia. lia.
Qed.

Lemma round_nearest_even_bound (m : Z) (l : location) :
  0 <= m ->
  0 <= round_nearest_even m l /\
  Zdigits2 (round_nearest_even m l) <= Zdigits2 m + 1.
Proof.
  intros Hm. pose proof (Zdigits2_succ m Hm) as Hsucc.
  unfold round_nearest_even.
  destruct l as [|[]]; try destruct (Z.even m); lia.
Qed.

(** One shift to the right drops one binary digit of the mantissa. *)
Lemma shr_1_digits (s : shr_record) (k : Z) :
  0 <= shr_m s -> Zdigits2 (shr_m s) <= k ->
  0 <= shr_m (shr_1 s) /\ Zdigits2 (shr_m (shr_1 s)) <= Z.max 0 (k - 1).
Proof.
  destruct s as [m r b]. cbn [shr_m]. intros Hm Hk.
  destruct m as [|[p|p|]|p]; cbn [shr_1 shr_m Zdigits2 digits2_pos] in *; lia.
Qed.

Lemma iter_shr_1_digits (p : positive) :
  forall (s : shr_record) (k : Z),
    0 <= shr_m s -> Zdigits2 (shr_m s) <= k ->
    0 <= shr_m (SpecFloat.iter_pos shr_1 p s) /\
    Zdigits2 (shr_m (SpecFloat.iter_pos shr_1 p s)) <= Z.max 0 (k - Zpos p).
Proof.
  induction p as [p IH|p IH|]; intros s k Hm Hk; cbn [SpecFloat.iter_pos].
  - destruct (shr_1_digits s k Hm Hk) as [H0 H1].
    destruct (IH _ _ H0 H1) as [H2 H3].
    destruct (IH _ _ H2 H3) as [H4 H5]. lia.
  - destruct (IH _ _ Hm Hk) as [H2 H3].
    destruct (IH _ _ H2 H3) as [H4 H5]. lia.
  - apply shr_1_digits; assumption.
Qed.

(** The first step of rounding: the mantissa is shifted until the exponent
    is the one of the format. *)
Lemma shr_fexp_bound (m e : Z) (l : location) (mrs : shr_record) (e' : Z) :
  0 <= m ->
  shr_fexp prec emax m e l = (mrs, e') ->
  0 <= shr_m mrs /\
  e' = Z.max e (Z.max (Zdigits2 m + e - 53) (-1074)) /\
  Zdigits2 (shr_m mrs) <= Z.max 0 (Zdigits2 m - (e' - e)) /\
  (e' = e -> mrs = shr_record_of_loc m l).
Proof.
  intros Hm. unfold shr_fexp, shr, fexp, emin, prec, emax.
  assert (Hrec : shr_m (shr_record_of_loc m l) = m) by (by destruct l as [|[]]).
  destruct (Z.max (Zdigits2 m + e - 53) (3 - 1024 - 53) - e) as [|p|p] eqn:Hn;
    intros [= <- <-].
  - rewrite Hrec. repeat split; lia.
  - destruct (iter_shr_1_digits p (shr_record_of_loc m l) (Zdigits2 m)) as [H0 H1];
      rewrite ?Hrec; lia.
  - rewrite Hrec. repeat split; lia.
Qed.

(** Rounding a magnitude below [2^1023], given with an exponent in range,
    gives a zero or a finite number. *)
Lemma binary_round_aux_finite (sx : bool) (m : positive) (e : Z) :
  e <= 971 -> Zpos (digits2_pos m) + e <= 1023 ->
  match binary_round_aux prec emax sx (Zpos m) e loc_Exact with
  | S754_zero _ | S754_finite _ _ _ => True
  | _ => False
  end.
Proof.
  intros He Hd. unfold binary_round_aux.
  destruct (shr_fexp prec emax (Zpos m) e loc_Exact) as [mrs' e'] eqn:H1.
  apply shr_fexp_bound in H1 as (Hm' & He' & Hd' & Hsame); [|lia].
  cbn [Zdigits2] in He', Hd'.
  destruct (round_nearest_even_bound (shr_m mrs') (loc_of_shr_record mrs') Hm')
    as [Hm2 Hd2].
  assert (Hexact : e' = e ->
            round_nearest_even (shr_m mrs') (loc_of_shr_record mrs') = Zpos m).
  { intros Heq. rewrite (Hsame Heq). reflexivity. }
  destruct (shr_fexp prec emax
              (round_nearest_even (shr_m mrs') (loc_of_shr_record mrs')) e' loc_Exact)
    as [mrs'' e''] eqn:H2.
  apply shr_fexp_bound in H2 as (Hm'' & He'' & _ & _); [|exact Hm2].
  destruct (shr_m mrs'') as [|m''|m'']; [exact I| |lia].
  assert (Hle : e'' <= 971).
  { destruct (Z.eq_dec e' e) as [Heq|Hne].
    - rewrite (Hexact Heq) in He''. cbn [Zdigits2] in He''. lia.
    - lia. }
  unfold emax, prec. apply Z.leb_le in Hle.
  change (1024 - 53) with 971. by rewrite Hle.
Qed.

(** Scaling a finite number by a constant below one half does not overflow. *)
Lemma mul_small_finite (c x : float) (sc : bool) (mc : positive) (ec : Z) :
  Prim2SF c = S754_finite sc mc ec ->
  Zpos (digits2_pos mc) + ec <= -1 ->
  PyFloat.is_finite x = true -> PyFloat.is_finite (c * x) = true.
Proof.
  intros Hc Hsmall Hx. apply is_finite_spec. apply is_finite_spec in Hx.
  rewrite mul_spec, Hc. pose proof (Prim2SF_valid x) as Hvalid.
  destruct (Prim2SF x) as [s|s| |s m e]; try contradiction; [exact I|].
  cbn [valid_binary] in Hvalid. unfold bounded, canonical_mantissa, fexp, emin in Hvalid.
  apply andb_prop in Hvalid as [Hcanon Hbound].
  apply Z.eqb_eq in Hcanon. apply Z.leb_le in Hbound.
  unfold prec, emax in Hcanon, Hbound.
  unfold SF64mul, SFmul.
  pose proof (digits2_pos_mul mc m) as Hmul.
  assert (Hdc : 0 < Zpos (digits2_pos mc)) by lia.
  apply binary_round_aux_finite; lia.
Qed.

Lemma max_finite (a b : float) :
  PyFloat.is_finite a = true -> PyFloat.is_finite b = true ->
  PyFloat.is_finite (PyFloat.max a b) = true.
Proof. intros Ha Hb. unfold PyFloat.max. by destruct (a <? b)%float. Qed.

(** The displacement heuristic of a finite slope is finite. *)
Lemma heuristic_finite (slope : float) :
  PyFloat.is_finite slope = true ->
  PyFloat.is_finite (PyFloat.max 0.01 (0.01 * slope)) = true.
Proof.
  intros Hslope. apply max_finite; [reflexivity|].
  apply (mul_small_finite 0.01 slope false 5764607523034235 (-59));
    [reflexivity|cbn; lia|exact Hslope].
Qed.

End FloatFinite.

(** ** The classifier *)

Section Classifier.
Context `{Runtime}.

Lemma result_of_lookup (prob : float) :
  Predictor.result_of prob !! "risk" = Some (VStr (Predictor.risk_label prob)) /\
  Predictor.result_of prob !! "probability" = Some (VFloat (PyFloat.round prob 3)) /\
  Predictor.result_of prob !! "rockfall_predicted" = Some (VInt (Predictor.rockfall_label prob)).
Proof.
  unfold Predictor.result_of.
  generalize (Predictor.risk_label prob), (PyFloat.round prob 3),
    (Predictor.rockfall_label prob).
  intros; repeat split; reflexivity.
Qed.

Lemma predict_success model features result log :
  Predictor.predict model features = (inr result, log) ->
  exists predict_proba vec prob,
    model = Some predict_proba /\
    Predictor.missing_keys features = [] /\
    Predictor.input_vec features = Some vec /\
    predict_proba vec = Returns prob /\
    result = Predictor.result_of prob /\
    log = [PredictProba vec].
Proof.
  unfold Predictor.predict.
  destruct model as [predict_proba|]; [|discriminate].
  destruct (Predictor.missing_keys features) eqn:Hmiss; [|discriminate].
  destruct (Predictor.input_vec features) as [vec|] eqn:Hvec; [|discriminate].
  destruct (predict_proba vec) as [|prob] eqn:Hp; [discriminate|].
  intros [= <- <-]. eauto 10.
Qed.

Lemma leb_ltb_false (x y : float) :
  (x <=? y)%float = true -> (y <? x)%float = false.
Proof.
  rewrite leb_spec, ltb_spec. unfold SFleb, SFltb.
  rewrite (SFcompare_antisym (Prim2SF x) (Prim2SF y)).
  destruct (SFcompare (Prim2SF x) (Prim2SF y)) as [[]|]; simpl; congruence.
Qed.

Lemma risk_label_cases (p : float) :
  ((0.7 <? p)%float = true /\ Predictor.risk_label p = "high") \/
  ((0.7 <? p)%float = false /\ (0.4 <? p)%float = true /\
     Predictor.risk_label p = "medium") \/
  ((0.7 <? p)%float = false /\ (0.4 <? p)%float = false /\
     Predictor.risk_label p = "low").
Proof.
  unfold Predictor.risk_label.
  destruct (0.7 <? p)%float; [tauto|].
  destruct (0.4 <? p)%float; tauto.
Qed.

Lemma above_07_above_04 (p : float) :
  (0.7 <? p)%float = true -> (0.4 <? p)%float = true.
Proof. apply ltb_trans. reflexivity. Qed.

Lemma above_05_above_04 (p : float) :
  (0.5 <? p)%float = true -> (0.4 <? p)%float = true.
Proof. apply ltb_trans. reflexivity. Qed.

(** C1: whenever the classifier succeeds, with [p] the probability the model
    returned for the assembled vector, the risk label follows the fixed
    three-way split: "high" iff [p > 0.7], "medium" iff [0.4 < p <= 0.7],
    "low" iff [p <= 0.4] (for [p] a number, as a probability is); at
    [p = 0.7] the label is "medium". *)
Theorem C1_risk_label_three_way_split model features result log :
  Predictor.predict model features = (inr result, log) ->
  exists predict_proba vec p,
    model = Some predict_proba /\
    Predictor.input_vec features = Some vec /\
    predict_proba vec = Returns p /\
    (is_nan p = false ->
       (result !! "risk" = Some (VStr "high") <-> (0.7 <? p)%float = true) /\
       (result !! "risk" = Some (VStr "medium") <->
          (0.4 <? p)%float = true /\ (p <=? 0.7)%float = true) /\
       (result !! "risk" = Some (VStr "low") <-> (p <=? 0.4)%float = true)) /\
    (p = 0.7%float -> result !! "risk" = Some (VStr "medium")).
Proof.
  intros (predict_proba & vec & p & -> & _ & Hvec & Hp & -> & _)%predict_success.
  exists predict_proba, vec, p.
  destruct (result_of_lookup p) as (Hrisk & _).
  rewrite Hrisk.
  refine (conj eq_refl (conj Hvec (conj Hp (conj _ _)))).
  - intros Hnan.
    rewrite (leb_not_ltb p 0.7 Hnan eq_refl), (leb_not_ltb p 0.4 Hnan eq_refl).
    pose proof (above_07_above_04 p) as Htrans.
    destruct (risk_label_cases p) as [(H7 & ->)|[(H7 & H4 & ->)|(H7 & H4 & ->)]].
    + rewrite H7, (Htrans H7). simpl. intuition congruence.
    + rewrite H7, H4. simpl. intuition congruence.
    + rewrite H7, H4. simpl. intuition congruence.
  - intros ->. reflexivity.
Qed.

Lemma round_half_even_nearest (num den : Z) :
  0 <= num -> 0 < den ->
  0 <= PyFloat.round_half_even num den /\
  Z.abs (2 * num - 2 * PyFloat.round_half_even num den * den) <= den.
Proof.
  intros Hnum Hden. unfold PyFloat.round_half_even.
  pose proof (Z.div_mod num den ltac:(lia)) as Hdm.
  pose proof (Z.mod_pos_bound num den Hden) as Hr.
  pose proof (Z.div_pos num den Hnum Hden) as Hq.
  destruct (Z.compare_spec (2 * (num mod den)) den);
    [destruct (Z.even (num / den))| |]; split; nia.
Qed.

Lemma scaled_fraction_sign (m : positive) (e : Z) (ndigits : nat) :
  0 <= fst (PyFloat.scaled_fraction m e (10 ^ Z.of_nat ndigits)) /\
  0 < snd (PyFloat.scaled_fraction m e (10 ^ Z.of_nat ndigits)).
Proof.
  unfold PyFloat.scaled_fraction.
  assert (0 < 10 ^ Z.of_nat ndigits) by (apply Z.pow_pos_nonneg; lia).
  destruct (Z.leb_spec 0 e); simpl.
  - assert (0 < 2 ^ e) by (apply Z.pow_pos_nonneg; lia). nia.
  - assert (0 < 2 ^ (- e)) by (apply Z.pow_pos_nonneg; lia). nia.
Qed.

Lemma round_rounded (ndigits : nat) (x : float) :
  PyFloat.rounded_to_decimals ndigits x (PyFloat.round x ndigits).
Proof.
  unfold PyFloat.rounded_to_decimals, PyFloat.round.
  destruct (Prim2SF x) as [| | |s m e]; try reflexivity.
  destruct (scaled_fraction_sign m e ndigits) as [Hnum Hden].
  destruct (PyFloat.scaled_fraction m e (10 ^ Z.of_nat ndigits)) as [num den].
  simpl in *.
  destruct (round_half_even_nearest num den Hnum Hden) as [Hn Hnear].
  eauto.
Qed.

(** C2: whenever the classifier succeeds, with [p] the probability the model
    returned, the [probability] field is [p] rounded to 3 decimals and
    [rockfall_predicted] is 1 exactly when [p > 0.5] (and 0 otherwise), so a
    [p] in (0.5, 0.7] is labelled "medium" and predicted positive. *)
Theorem C2_probability_rounded_and_flag model features result log :
  Predictor.predict model features = (inr result, log) ->
  exists predict_proba vec p r,
    model = Some predict_proba /\
    Predictor.input_vec features = Some vec /\
    predict_proba vec = Returns p /\
    result !! "probability" = Some (VFloat r) /\
    r = PyFloat.round p 3 /\
    PyFloat.rounded_to_decimals 3 p r /\
    (result !! "rockfall_predicted" = Some (VInt 1) <-> (0.5 <? p)%float = true) /\
    (result !! "rockfall_predicted" = Some (VInt 0) <-> (0.5 <? p)%float = false) /\
    ((0.5 <? p)%float = true -> (p <=? 0.7)%float = true ->
       result !! "risk" = Some (VStr "medium") /\
       result !! "rockfall_predicted" = Some (VInt 1)).
Proof.
  intros (predict_proba & vec & p & -> & _ & Hvec & Hp & -> & _)%predict_success.
  exists predict_proba, vec, p, (PyFloat.round p 3).
  destruct (result_of_lookup p) as (Hrisk & Hprob & Hflag).
  rewrite Hrisk, Hprob, Hflag. unfold Predictor.rockfall_label.
  refine (conj eq_refl (conj Hvec (conj Hp (conj eq_refl (conj eq_refl
            (conj (round_rounded 3 p) _)))))).
  split; [|split].
  - destruct (0.5 <? p)%float; intuition congruence.
  - destruct (0.5 <? p)%float; intuition congruence.
  - intros H5 H7%leb_ltb_false. rewrite H5.
    unfold Predictor.risk_label. rewrite H7, (above_05_above_04 p H5). done.
Qed.

(** The missing keys are the required keys the mapping lacks, in the order of
    [required_keys]. *)
Lemma missing_keys_spec (features : gmap string pyval) (key : string) :
  key ∈ Predictor.missing_keys features <->
  key ∈ Predictor.required_keys /\ features !! key = None.
Proof.
  unfold Predictor.missing_keys.
  rewrite !list_elem_of_In, filter_In.
  destruct (features !! key); intuition congruence.
Qed.

(** C7, as the code has it: with the model loaded, a mapping that lacks
    required fields makes [predict] raise the [ValueError] whose message lists
    every missing field, before any call to the model; the handler of
    [/predict] would answer such an error with status 500 and the message as
    details.  Without a model the "model not loaded" error comes first. *)
Theorem C7_missing_fields_rejected predict_proba features :
  Predictor.missing_keys features <> [] ->
  let e := Predictor.MissingInputFeatures (Predictor.missing_keys features) in
  Predictor.predict (Some predict_proba) features = (inl e, []) /\
  (forall key, key ∈ Predictor.missing_keys features <->
               key ∈ Predictor.required_keys /\ features !! key = None) /\
  Predictor.message e =
    String.append "Missing input features: "
      (String.concat ", " (Predictor.missing_keys features)) /\
  Predictor.is_RuntimeError e = false /\
  Main.status_of (Main.error_response e) = 500 /\
  Main.content_of (Main.error_response e) !! "details" = Some (VStr (Predictor.message e)) /\
  Predictor.predict None features = (inl Predictor.ModelNotLoaded, []).
Proof.
  intros Hmiss e. split; [|split; [|repeat apply conj; reflexivity]].
  - unfold Predictor.predict. subst e.
    destruct (Predictor.missing_keys features); [congruence|reflexivity].
  - apply missing_keys_spec.
Qed.

End Classifier.


(** ** The feature resolver *)

Section Resolver.
Context `{Runtime}.

Lemma base_features_lookup (body weather_data : gmap string pyval) :
  let features := Main.base_features body weather_data in
  features !! "slope" = Some (dict_get body "slope") /\
  features !! "rainfall" =
    Some (dict_get_or body "rainfall"
            (dict_get_or weather_data "rain_1h"
               (dict_get_or body "rain" (VFloat 10.0)))) /\
  features !! "temperature" =
    Some (dict_get_or body "temperature"
            (dict_get_or weather_data "temp" (VFloat 25.0))) /\
  features !! "vibration" = Some (dict_get body "vibration") /\
  features !! "wind_speed" =
    Some (dict_get_or body "wind_speed"
            (dict_get_or weather_data "wind_speed" (VFloat 2.0))) /\
  features !! "displacement_rate" = Some (dict_get body "displacement_rate").
Proof. repeat split; reflexivity. Qed.

Lemma coerce_features_lookup (features : gmap string pyval) :
  let coerced := Main.coerce_features features in
  coerced !! "rainfall" =
    Some (VFloat (Main._to_float (dict_get_or features "rainfall" (VFloat 10.0)) 10.0)) /\
  coerced !! "temperature" =
    Some (VFloat (Main._to_float (dict_get_or features "temperature" (VFloat 25.0)) 25.0)) /\
  coerced !! "slope" =
    Some (VFloat (Main._to_float (dict_get_or features "slope" (VFloat 30.0)) 30.0)) /\
  coerced !! "wind_speed" =
    Some (VFloat (Main._to_float (dict_get_or features "wind_speed" (VFloat 2.0)) 2.0)) /\
  coerced !! "displacement_rate" =
    Some (VFloat (Main._to_float
                    (dict_get_or features "displacement_rate" (VFloat 0.01)) 0.01)) /\
  coerced !! "vibration" =
    Some (VFloat (Main._to_float (dict_get_or features "vibration" (VFloat 0.0)) 0.0)).
Proof. repeat split; reflexivity. Qed.

(** Step 9 produces the six keys, each bound to a float. *)
Lemma coerce_features_shape (features : gmap string pyval) :
  dom (Main.coerce_features features) = list_to_set Predictor.required_keys /\
  map_Forall (fun _ v => exists x, v = VFloat x) (Main.coerce_features features).
Proof.
  unfold Main.coerce_features. split.
  - rewrite !dom_insert_L, dom_singleton_L. simpl. set_solver.
  - repeat apply map_Forall_insert_2; eauto.
    apply map_Forall_empty.
Qed.

(** What step 6 leaves under "slope", and the call it makes. *)
Lemma fill_slope_spec (W : Main.World) (lat lon : float) (features : gmap string pyval) :
  Main.fill_slope W lat lon features =
    if is_none (dict_get features "slope")
    then (<["slope" := match Main.get_slope W lat lon with
                       | Returns v => if is_none v then VFloat 30.0 else v
                       | Raises => VFloat 30.0
                       end]> features,
          [GetSlope lat lon])
    else (features, []).
Proof.
  unfold Main.fill_slope.
  destruct (is_none (dict_get features "slope")); [|reflexivity].
  destruct (Main.get_slope W lat lon) as [|v]; [reflexivity|].
  destruct (is_none v); reflexivity.
Qed.

(** What step 7 leaves under "vibration", and the call it makes. *)
Lemma fill_vibration_spec (W : Main.World) (features : gmap string pyval) :
  Main.fill_vibration W features =
    if is_none (dict_get features "vibration")
    then (<["vibration" := match Main.get_latest_sensor_state W with
                           | Returns (VDict sensor_state) =>
                               dict_get_or sensor_state "vibration" (VFloat 0.0)
                           | _ => VFloat 0.0
                           end]> features,
          [GetLatestSensorState])
    else (features, []).
Proof.
  unfold Main.fill_vibration.
  destruct (is_none (dict_get features "vibration")); [|reflexivity].
  destruct (Main.get_latest_sensor_state W) as [|[]]; reflexivity.
Qed.

Lemma to_float_slope_lookup (o : outcome pyval) :
  Main._to_float match o with
                 | Returns v => if is_none v then VFloat 30.0 else v
                 | Raises => VFloat 30.0
                 end 30.0 =
  match o with
  | Returns v => Main._to_float v 30.0
  | Raises => 30.0%float
  end.
Proof. destruct o as [|[]]; reflexivity. Qed.

Lemma to_float_sensor_state (o : outcome pyval) :
  Main._to_float match o with
                 | Returns (VDict sensor_state) =>
                     dict_get_or sensor_state "vibration" (VFloat 0.0)
                 | _ => VFloat 0.0
                 end 0.0 =
  match o with
  | Returns (VDict sensor_state) =>
      Main._to_float (dict_get_or sensor_state "vibration" (VFloat 0.0)) 0.0
  | _ => 0.0%float
  end.
Proof. destruct o as [|[]]; reflexivity. Qed.

Lemma resolve_features_unfold (W : Main.World) (body : gmap string pyval)
    (lat lon : float) :
  Main.demo_lookup (Main.demo_key_of lat lon) = None ->
  let base := Main.base_features body (Main.weather_data_of W lat lon) in
  let f1 := Main.fill_slope W lat lon base in
  let f2 := Main.fill_vibration W f1.1 in
  Main.resolve_features W body lat lon =
    (Main.coerce_features (Main.fill_displacement_rate body f2.1),
     [FetchOpenweather lat lon] ++ f1.2 ++ f2.2).
Proof.
  intros Hdemo base f1 f2. subst f2 f1 base.
  unfold Main.resolve_features. rewrite Hdemo.
  destruct (Main.fill_slope _ _ _ _) as [g1 c1]. cbn [fst snd].
  destruct (Main.fill_vibration _ _) as [g2 c2]. reflexivity.
Qed.

(** The resolved features of a request that hits no demo override, field by
    field, and the lookups made for them. *)
Lemma resolve_features_live (W : Main.World) (body : gmap string pyval) (lat lon : float) :
  Main.demo_lookup (Main.demo_key_of lat lon) = None ->
  let weather_data := Main.weather_data_of W lat lon in
  let features := (Main.resolve_features W body lat lon).1 in
  let slope :=
    if is_none (dict_get body "slope")
    then match Main.get_slope W lat lon with
         | Returns v => Main._to_float v 30.0
         | Raises => 30.0%float
         end
    else Main._to_float (dict_get body "slope") 30.0 in
  features !! "rainfall" =
    Some (VFloat (Main._to_float
                    (dict_get_or body "rainfall"
                       (dict_get_or weather_data "rain_1h"
                          (dict_get_or body "rain" (VFloat 10.0)))) 10.0)) /\
  features !! "temperature" =
    Some (VFloat (Main._to_float
                    (dict_get_or body "temperature"
                       (dict_get_or weather_data "temp" (VFloat 25.0))) 25.0)) /\
  features !! "wind_speed" =
    Some (VFloat (Main._to_float
                    (dict_get_or body "wind_speed"
                       (dict_get_or weather_data "wind_speed" (VFloat 2.0))) 2.0)) /\
  features !! "slope" = Some (VFloat slope) /\
  features !! "vibration" =
    Some (VFloat (if is_none (dict_get body "vibration")
                  then match Main.get_latest_sensor_state W with
                       | Returns (VDict sensor_state) =>
                           Main._to_float
                             (dict_get_or sensor_state "vibration" (VFloat 0.0)) 0.0
                       | _ => 0.0%float
                       end
                  else Main._to_float (dict_get body "vibration") 0.0)) /\
  features !! "displacement_rate" =
    Some (VFloat (if is_none (dict_get body "displacement_rate")
                  then if is_none (dict_get body "displacement")
                       then PyFloat.max 0.01 (0.01 * slope)
                       else match float_ (dict_get body "displacement") with
                            | Some d => d
                            | None => 0.01%float
                            end
                  else Main._to_float (dict_get body "displacement_rate") 0.01)) /\
  (Main.resolve_features W body lat lon).2 =
    [FetchOpenweather lat lon]
    ++ (if is_none (dict_get body "slope") then [GetSlope lat lon] else [])
    ++ (if is_none (dict_get body "vibration") then [GetLatestSensorState] else []).
Proof.
  intros Hdemo weather_data features slope. subst features.
  rewrite (resolve_features_unfold W body lat lon Hdemo). cbn [fst snd].
  fold weather_data.
  destruct (base_features_lookup body weather_data)
    as (Bslope & Brain & Btemp & Bvib & Bwind & Bdisp).
  set (base := Main.base_features body weather_data) in *.
  rewrite fill_slope_spec.
  replace (dict_get base "slope") with (dict_get body "slope")
    by (unfold dict_get at 2; by rewrite Bslope).
  set (looked_up := match Main.get_slope W lat lon with
                    | Returns v => if is_none v then VFloat 30.0 else v
                    | Raises => VFloat 30.0
                    end).
  assert (Hslope : slope = Main._to_float
                             (if is_none (dict_get body "slope") then looked_up
                              else dict_get body "slope") 30.0).
  { subst slope looked_up. destruct (is_none (dict_get body "slope")); [|reflexivity].
    symmetry. apply to_float_slope_lookup. }
  set (f1 := if is_none (dict_get body "slope")
             then (<["slope" := looked_up]> base, [GetSlope lat lon])
             else (base, [])).
  assert (F1slope : f1.1 !! "slope" =
                    Some (if is_none (dict_get body "slope") then looked_up
                          else dict_get body "slope")).
  { subst f1. destruct (is_none (dict_get body "slope")); cbn [fst].
    - by rewrite lookup_insert_eq.
    - exact Bslope. }
  assert (F1other : forall key, key <> "slope" -> f1.1 !! key = base !! key).
  { intros key Hkey. subst f1. destruct (is_none (dict_get body "slope")); cbn [fst].
    - by rewrite lookup_insert_ne.
    - reflexivity. }
  assert (F1calls : f1.2 = if is_none (dict_get body "slope")
                           then [GetSlope lat lon] else []).
  { subst f1. destruct (is_none (dict_get body "slope")); reflexivity. }
  rewrite F1calls. clearbody f1.
  rewrite fill_vibration_spec.
  replace (dict_get f1.1 "vibration") with (dict_get body "vibration")
    by (unfold dict_get at 2; rewrite F1other by discriminate; by rewrite Bvib).
  set (sensed := match Main.get_latest_sensor_state W with
                 | Returns (VDict sensor_state) =>
                     dict_get_or sensor_state "vibration" (VFloat 0.0)
                 | _ => VFloat 0.0
                 end).
  set (f2 := if is_none (dict_get body "vibration")
             then (<["vibration" := sensed]> f1.1, [GetLatestSensorState])
             else (f1.1, [])).
  assert (F2vib : f2.1 !! "vibration" =
                  Some (if is_none (dict_get body "vibration") then sensed
                        else dict_get body "vibration")).
  { subst f2. destruct (is_none (dict_get body "vibration")); cbn [fst].
    - by rewrite lookup_insert_eq.
    - rewrite F1other by discriminate. exact Bvib. }
  assert (F2other : forall key, key <> "vibration" -> f2.1 !! key = f1.1 !! key).
  { intros key Hkey. subst f2. destruct (is_none (dict_get body "vibration")); cbn [fst].
    - by rewrite lookup_insert_ne.
    - reflexivity. }
  assert (F2calls : f2.2 = if is_none (dict_get body "vibration")
                           then [GetLatestSensorState] else []).
  { subst f2. destruct (is_none (dict_get body "vibration")); reflexivity. }
  rewrite F2calls. clearbody f2.
  set (f3 := Main.fill_displacement_rate body f2.1).
  assert (F3other : forall key, key <> "displacement_rate" -> f3 !! key = f2.1 !! key).
  { intros key Hkey. subst f3. unfold Main.fill_displacement_rate.
    destruct (is_none (dict_get f2.1 "displacement_rate")); [|reflexivity].
    destruct (negb (is_none (dict_get body "displacement")));
      [destruct (float_ (dict_get body "displacement"))|destruct (f2.1 !! "slope")];
      by rewrite lookup_insert_ne. }
  assert (F3disp : f3 !! "displacement_rate" =
            Some (if is_none (dict_get body "displacement_rate")
                  then VFloat (if is_none (dict_get body "displacement")
                               then PyFloat.max 0.01 (0.01 * slope)
                               else match float_ (dict_get body "displacement") with
                                    | Some d => d
                                    | None => 0.01%float
                                    end)
                  else dict_get body "displacement_rate")).
  { subst f3. unfold Main.fill_displacement_rate.
    replace (dict_get f2.1 "displacement_rate")
      with (dict_get body "displacement_rate")
      by (unfold dict_get at 2;
          rewrite F2other, F1other by discriminate; by rewrite Bdisp).
    destruct (is_none (dict_get body "displacement_rate")).
    - rewrite F2other, F1slope by discriminate.
      destruct (is_none (dict_get body "displacement")); cbn [negb].
      + rewrite lookup_insert_eq, Hslope. reflexivity.
      + destruct (float_ (dict_get body "displacement")); by rewrite lookup_insert_eq.
    - rewrite F2other, F1other by discriminate. exact Bdisp. }
  clearbody f3.
  destruct (coerce_features_lookup f3) as (Lrain & Ltemp & Lslope & Lwind & Ldisp & Lvib).
  rewrite Lrain, Ltemp, Lslope, Lwind, Ldisp, Lvib.
  unfold dict_get_or in *.
  rewrite F3disp.
  rewrite !F3other by discriminate.
  rewrite F2vib.
  rewrite !F2other by discriminate.
  rewrite F1slope.
  rewrite !F1other by discriminate.
  rewrite Brain, Btemp, Bwind. cbn [from_option id].
  rewrite <- Hslope.
  repeat split.
  - destruct (is_none (dict_get body "vibration")); [|reflexivity].
    subst sensed. by rewrite to_float_sensor_state.
  - destruct (is_none (dict_get body "displacement_rate")); reflexivity.
Qed.


End Resolver.

(** ** Finite inputs, and values passed on *)

Section ResolverFinite.
Context `{Runtime}.

Lemma to_float_finite (v : pyval) (dflt : float) :
  finite_or_rejected v = true -> PyFloat.is_finite dflt = true ->
  PyFloat.is_finite (Main._to_float v dflt) = true.
Proof.
  unfold finite_or_rejected, Main._to_float. intros Hv Hd.
  destruct v; try exact Hd; destruct (float_ _); assumption.
Qed.

Lemma to_float_converts (v : pyval) (x dflt : float) :
  float_ v = Some x -> Main._to_float v dflt = x.
Proof.
  unfold Main._to_float. intros Hv. destruct v; try discriminate; by rewrite Hv.
Qed.

Lemma dict_get_or_finite (d : gmap string pyval) (key : string) (dflt : pyval) :
  (forall v, d !! key = Some v -> finite_or_rejected v = true) ->
  finite_or_rejected dflt = true ->
  finite_or_rejected (dict_get_or d key dflt) = true.
Proof.
  intros Hd Hdflt. unfold dict_get_or. destruct (d !! key) as [v|]; [by apply Hd|exact Hdflt].
Qed.

Lemma dict_get_finite (d : gmap string pyval) (key : string) :
  (forall v, d !! key = Some v -> finite_or_rejected v = true) ->
  finite_or_rejected (dict_get d key) = true.
Proof.
  intros Hd. unfold dict_get. destruct (d !! key) as [v|]; [by apply Hd|reflexivity].
Qed.

(** Off the demo overrides, finite inputs give finite features. *)
Lemma resolve_features_finite (W : Main.World) (body : gmap string pyval)
    (lat lon : float) :
  Main.demo_lookup (Main.demo_key_of lat lon) = None ->
  (forall key v, key ∈ request_feature_keys -> body !! key = Some v ->
     finite_or_rejected v = true) ->
  (forall key v, key ∈ snapshot_feature_keys ->
     Main.weather_data_of W lat lon !! key = Some v -> finite_or_rejected v = true) ->
  (forall v, Main.get_slope W lat lon = Returns v -> finite_or_rejected v = true) ->
  (forall sensor_state v,
     Main.get_latest_sensor_state W = Returns (VDict sensor_state) ->
     sensor_state !! "vibration" = Some v -> finite_or_rejected v = true) ->
  forall key x,
    (Main.resolve_features W body lat lon).1 !! key = Some (VFloat x) ->
    PyFloat.is_finite x = true.
Proof.
  intros Hdemo Hbody Hweather Hslope Hsensor.
  destruct (resolve_features_live W body lat lon Hdemo)
    as (Hrain & Htemp & Hwind & Hs & Hvib & Hdisp & _).
  assert (Hb : forall key, key ∈ request_feature_keys ->
            forall v, body !! key = Some v -> finite_or_rejected v = true)
    by (intros key Hkey v; by apply Hbody).
  assert (Hw : forall key, key ∈ snapshot_feature_keys ->
            forall v, Main.weather_data_of W lat lon !! key = Some v ->
                      finite_or_rejected v = true)
    by (intros key Hkey v; by apply Hweather).
  assert (Hin : forall key, key ∈ ["slope"; "rainfall"; "rain"; "temperature"; "vibration";
                                   "wind_speed"; "displacement_rate"; "displacement"] ->
                key ∈ request_feature_keys) by (intros key Hkey; exact Hkey).
  assert (Hin' : forall key, key ∈ ["rain_1h"; "temp"; "wind_speed"] ->
                 key ∈ snapshot_feature_keys) by (intros key Hkey; exact Hkey).
  assert (Fslope : PyFloat.is_finite
            (if is_none (dict_get body "slope")
             then match Main.get_slope W lat lon with
                  | Returns v => Main._to_float v 30.0
                  | Raises => 30.0%float
                  end
             else Main._to_float (dict_get body "slope") 30.0) = true).
  { destruct (is_none (dict_get body "slope")).
    - destruct (Main.get_slope W lat lon) as [|v] eqn:Hv; [reflexivity|].
      apply to_float_finite; [by apply Hslope|reflexivity].
    - apply to_float_finite; [|reflexivity].
      apply dict_get_finite, Hb, Hin. repeat constructor. }
  intros key x Hx.
  assert (Hkey : key ∈ Predictor.required_keys).
  { assert (Hdom : key ∈ dom (Main.resolve_features W body lat lon).1)
      by (apply elem_of_dom; eauto).
    assert (Hshape : exists raw,
              (Main.resolve_features W body lat lon).1 = Main.coerce_features raw).
    { rewrite (resolve_features_unfold W body lat lon Hdemo). eauto. }
    destruct Hshape as [raw Hraw]. rewrite Hraw in Hdom.
    destruct (coerce_features_shape raw) as [Hd _]. rewrite Hd in Hdom.
    by apply elem_of_list_to_set in Hdom. }
  unfold Predictor.required_keys in Hkey.
  repeat (apply elem_of_cons in Hkey as [->|Hkey]); [..|by apply elem_of_nil in Hkey].
  - rewrite Hrain in Hx. injection Hx as <-.
    apply to_float_finite; [|reflexivity].
    apply dict_get_or_finite; [apply Hb, Hin; repeat constructor|].
    apply dict_get_or_finite; [apply Hw, Hin'; repeat constructor|].
    apply dict_get_or_finite; [apply Hb, Hin; repeat constructor|reflexivity].
  - rewrite Htemp in Hx. injection Hx as <-.
    apply to_float_finite; [|reflexivity].
    apply dict_get_or_finite; [apply Hb, Hin; repeat constructor|].
    apply dict_get_or_finite; [apply Hw, Hin'; repeat constructor|reflexivity].
  - rewrite Hs in Hx. injection Hx as <-. exact Fslope.
  - rewrite Hwind in Hx. injection Hx as <-.
    apply to_float_finite; [|reflexivity].
    apply dict_get_or_finite; [apply Hb, Hin; repeat constructor|].
    apply dict_get_or_finite; [apply Hw, Hin'; repeat constructor|reflexivity].
  - rewrite Hdisp in Hx. injection Hx as <-.
    destruct (is_none (dict_get body "displacement_rate")).
    + destruct (is_none (dict_get body "displacement")).
      * by apply heuristic_finite.
      * assert (Hd : finite_or_rejected (dict_get body "displacement") = true)
          by (apply dict_get_finite, Hb, Hin; repeat constructor).
        unfold finite_or_rejected in Hd.
        destruct (float_ (dict_get body "displacement")); [exact Hd|reflexivity].
    + apply to_float_finite; [|reflexivity].
      apply dict_get_finite, Hb, Hin. repeat constructor.
  - rewrite Hvib in Hx. injection Hx as <-.
    destruct (is_none (dict_get body "vibration")).
    + destruct (Main.get_latest_sensor_state W) as [|[]] eqn:Hst; try reflexivity.
      apply to_float_finite; [|reflexivity].
      apply dict_get_or_finite; [|reflexivity].
      intros v Hv. by apply (Hsensor d).
    + apply to_float_finite; [|reflexivity].
      apply dict_get_finite, Hb, Hin. repeat constructor.
Qed.

(** Off the demo overrides, a value that [float] accepts reaches the
    classifier as the float it converts to, whether the request gives it for
    a field or a lookup that the request leaves open returns it. *)
Lemma resolve_features_passes_on (W : Main.World) (body : gmap string pyval)
    (lat lon : float) :
  Main.demo_lookup (Main.demo_key_of lat lon) = None ->
  let features := (Main.resolve_features W body lat lon).1 in
  (forall key v x,
     key ∈ Predictor.required_keys -> body !! key = Some v -> float_ v = Some x ->
     features !! key = Some (VFloat x)) /\
  (forall v x,
     body !! "rainfall" = None -> Main.weather_data_of W lat lon !! "rain_1h" = None ->
     body !! "rain" = Some v -> float_ v = Some x ->
     features !! "rainfall" = Some (VFloat x)) /\
  (forall key key' v x,
     (key, key') ∈ [("rainfall", "rain_1h"); ("temperature", "temp");
                    ("wind_speed", "wind_speed")] ->
     body !! key = None -> Main.weather_data_of W lat lon !! key' = Some v ->
     float_ v = Some x ->
     features !! key = Some (VFloat x)) /\
  (forall v x,
     is_none (dict_get body "slope") = true ->
     Main.get_slope W lat lon = Returns v -> float_ v = Some x ->
     features !! "slope" = Some (VFloat x)) /\
  (forall sensor_state v x,
     is_none (dict_get body "vibration") = true ->
     Main.get_latest_sensor_state W = Returns (VDict sensor_state) ->
     sensor_state !! "vibration" = Some v -> float_ v = Some x ->
     features !! "vibration" = Some (VFloat x)).
Proof.
  intros Hdemo features.
  destruct (resolve_features_live W body lat lon Hdemo)
    as (Hrain & Htemp & Hwind & Hs & Hvib & Hdisp & _).
  fold features in Hrain, Htemp, Hwind, Hs, Hvib, Hdisp.
  assert (Hgiven : forall v x, float_ v = Some x -> is_none v = false)
    by (intros [] x Hv; done).
  split; [|split; [|split; [|split]]].
  - intros key v x Hkey Hv Hx. unfold Predictor.required_keys in Hkey.
    pose proof (Hgiven v x Hx) as Hnone.
    assert (Hget : dict_get body key = v) by (unfold dict_get; by rewrite Hv).
    repeat (apply elem_of_cons in Hkey as [->|Hkey]); [..|by apply elem_of_nil in Hkey].
    + rewrite Hrain. unfold dict_get_or at 1. rewrite Hv. cbn [from_option id].
      by rewrite (to_float_converts v x).
    + rewrite Htemp. unfold dict_get_or at 1. rewrite Hv. cbn [from_option id].
      by rewrite (to_float_converts v x).
    + rewrite Hs, Hget, Hnone. by rewrite (to_float_converts v x).
    + rewrite Hwind. unfold dict_get_or at 1. rewrite Hv. cbn [from_option id].
      by rewrite (to_float_converts v x).
    + rewrite Hdisp, Hget, Hnone. by rewrite (to_float_converts v x).
    + rewrite Hvib, Hget, Hnone. by rewrite (to_float_converts v x).
  - intros v x Hbody Hsnapshot Hv Hx.
    rewrite Hrain. unfold dict_get_or. rewrite Hbody, Hsnapshot, Hv. cbn [from_option id].
    by rewrite (to_float_converts v x).
  - intros key key' v x Hkey Hbody Hv Hx.
    repeat (apply elem_of_cons in Hkey as [[= -> ->]|Hkey]);
      [..|by apply elem_of_nil in Hkey].
    + rewrite Hrain. unfold dict_get_or at 1. rewrite Hbody. cbn [from_option id].
      unfold dict_get_or at 1. rewrite Hv. cbn [from_option id].
      by rewrite (to_float_converts v x).
    + rewrite Htemp. unfold dict_get_or at 1. rewrite Hbody. cbn [from_option id].
      unfold dict_get_or at 1. rewrite Hv. cbn [from_option id].
      by rewrite (to_float_converts v x).
    + rewrite Hwind. unfold dict_get_or at 1. rewrite Hbody. cbn [from_option id].
      unfold dict_get_or at 1. rewrite Hv. cbn [from_option id].
      by rewrite (to_float_converts v x).
  - intros v x Hnone Hv Hx. rewrite Hs, Hnone, Hv. by rewrite (to_float_converts v x).
  - intros sensor_state v x Hnone Hst Hv Hx. rewrite Hvib, Hnone, Hst.
    unfold dict_get_or. rewrite Hv. cbn [from_option id].
    by rewrite (to_float_converts v x).
Qed.

End ResolverFinite.

(** ** What the resolver hands to the classifier *)

Section ResolverClaims.
Context `{Runtime}.

Lemma demo_lookup_cases (key : float * float) (override : gmap string pyval) :
  Main.demo_lookup key = Some override ->
  override ∈ (snd <$> Main.demo_overrides).
Proof.
  unfold Main.demo_lookup, Main.demo_overrides. cbn [List.find].
  repeat match goal with
         | |- context [if ?c then _ else _] => destruct c
         end.
  all: cbn [fmap option_fmap option_map list_fmap snd].
  all: intros [= <-].
  all: rewrite !elem_of_cons; tauto.
Qed.

Lemma coerce_override_verbatim (override : gmap string pyval) :
  override ∈ (snd <$> Main.demo_overrides) ->
  dom (Main.coerce_features override) = dom override /\
  map_Forall (fun key v => exists x, float_ v = Some x /\ PyFloat.is_finite x = true /\
                Main.coerce_features override !! key = Some (VFloat x)) override.
Proof.
  unfold Main.demo_overrides. cbn [fmap list_fmap snd].
  rewrite !elem_of_cons, elem_of_nil.
  intros [->|[->|[->|[]]]].
  all: split;
    [ unfold Main.coerce_features; rewrite ?dom_insert_L, ?dom_singleton_L, ?dom_empty_L;
      set_solver
    | repeat apply map_Forall_insert_2; try apply map_Forall_empty;
      eexists; (split; [reflexivity|split; [vm_compute; reflexivity|reflexivity]]) ].
Qed.

(** C3, as the code has it: when the coordinates, each rounded to one
    decimal, match a demo-override entry, the features handed to the
    classifier are that entry's values (as floats), whatever the request and
    the collaborators hold; the slope and sensor lookups are not made, while
    the weather fetch, which precedes the override check, still is.  At
    lat=23.04, lon=86.53 the key is (23.0, 86.5) and the features are the
    Jharia entry. *)
Theorem C3_demo_override_replaces_features (W : Main.World) (body : gmap string pyval) :
  (forall lat lon override,
     Main.demo_lookup (Main.demo_key_of lat lon) = Some override ->
     Main.resolve_features W body lat lon =
       (Main.coerce_features override, [FetchOpenweather lat lon]) /\
     override ∈ (snd <$> Main.demo_overrides) /\
     dom (Main.coerce_features override) = dom override /\
     (forall key v, override !! key = Some v ->
        exists x, float_ v = Some x /\
                  Main.coerce_features override !! key = Some (VFloat x))) /\
  Main.demo_key_of 23.04 86.53 = (23.0, 86.5)%float /\
  Main.resolve_features W body 23.04 86.53 =
    ({[ "slope" := VFloat 50; "rainfall" := VFloat 70; "temperature" := VFloat 35;
        "vibration" := VFloat 3.5; "wind_speed" := VFloat 10.0;
        "displacement_rate" := VFloat 0.5 ]},
     [FetchOpenweather 23.04 86.53]).
Proof.
  assert (Hgen : forall lat lon override,
     Main.demo_lookup (Main.demo_key_of lat lon) = Some override ->
     Main.resolve_features W body lat lon =
       (Main.coerce_features override, [FetchOpenweather lat lon])).
  { intros lat lon override Hkey. unfold Main.resolve_features. by rewrite Hkey. }
  split; [|split].
  - intros lat lon override Hkey.
    pose proof (demo_lookup_cases _ _ Hkey) as Hin.
    destruct (coerce_override_verbatim override Hin) as [Hdom Hall].
    split; [by apply Hgen|]. split; [assumption|]. split; [assumption|].
    intros key v Hv. destruct (Hall key v Hv) as (x & ? & _ & ?). eauto.
  - vm_compute. reflexivity.
  - rewrite (Hgen 23.04%float 86.53%float
               {[ "slope" := VInt 50; "rainfall" := VInt 70; "temperature" := VInt 35;
                  "vibration" := VFloat 3.5; "wind_speed" := VFloat 10.0;
                  "displacement_rate" := VFloat 0.5 ]}%float) by (vm_compute; reflexivity).
    f_equal.
Qed.

(** C4, on the example of the specification: the weather snapshot
    [{"rain": {"3h": 9}}] and a request with no rainfall override, away from
    the demo overrides.
    The handler of [/predict] reads the snapshot's "rain_1h" entry only, so
    rainfall resolves to the default 10.0 and not to 3.0; the summary of
    [/weather] does derive 3.0 from the same snapshot.  In general [/predict]
    takes rainfall from the request's "rainfall", then the snapshot's
    "rain_1h", then the request's "rain", then 10.0. *)
Theorem C4_rain_dict_snapshot_ignored :
  let snapshot : gmap string pyval := {[ "rain" := VDict {[ "3h" := VInt 9 ]} ]} in
  let body : gmap string pyval := {[ "lat" := VInt 10; "lon" := VInt 20 ]} in
  let W := Sample.with_weather (VDict snapshot) 0.5 in
  Main.parse_coordinates body = inr (10, 20)%float /\
  Main.demo_lookup (Main.demo_key_of 10 20) = None /\
  (Main.resolve_features W body 10 20).1 !! "rainfall" = Some (VFloat 10.0) /\
  (forall nasa_data,
     Main.weather_summary_rainfall nasa_data (VDict snapshot) = Some (VFloat 3.0)) /\
  (forall W' body' lat lon,
     Main.demo_lookup (Main.demo_key_of lat lon) = None ->
     (Main.resolve_features W' body' lat lon).1 !! "rainfall" =
       Some (VFloat (Main._to_float
                       (dict_get_or body' "rainfall"
                          (dict_get_or (Main.weather_data_of W' lat lon) "rain_1h"
                             (dict_get_or body' "rain" (VFloat 10.0)))) 10.0))).
Proof.
  intros snapshot body W.
  assert (Hdemo : Main.demo_lookup (Main.demo_key_of 10 20) = None)
    by (vm_compute; reflexivity).
  split; [vm_compute; reflexivity|]. split; [exact Hdemo|].
  split; [|split].
  - destruct (resolve_features_live W body 10 20 Hdemo) as (Hrain & _).
    rewrite Hrain. reflexivity.
  - intros nasa_data. vm_compute. reflexivity.
  - intros W' body' lat lon Hlive.
    apply (resolve_features_live W' body' lat lon Hlive).
Qed.

(** C5: for a request that hits no demo override and gives no
    [displacement_rate] (absent or null), the resolved displacement rate is
    the request's [displacement] converted to a float when that field is
    present (0.01 when the conversion fails), and otherwise
    [max(0.01, 0.01 * slope)] for the resolved slope: 0.4 at slope 40 and
    0.01 at slope 0.5. *)
Theorem C5_displacement_rate (W : Main.World) (body : gmap string pyval) (lat lon : float) :
  Main.demo_lookup (Main.demo_key_of lat lon) = None ->
  is_none (dict_get body "displacement_rate") = true ->
  let features := (Main.resolve_features W body lat lon).1 in
  exists slope,
    features !! "slope" = Some (VFloat slope) /\
    (forall disp, body !! "displacement" = Some disp -> is_none disp = false ->
       features !! "displacement_rate" =
         Some (VFloat match float_ disp with
                      | Some d => d
                      | None => 0.01%float
                      end)) /\
    (is_none (dict_get body "displacement") = true ->
       features !! "displacement_rate" =
         Some (VFloat (PyFloat.max 0.01 (0.01 * slope))) /\
       (slope = 40%float -> features !! "displacement_rate" = Some (VFloat 0.4)) /\
       (slope = 0.5%float -> features !! "displacement_rate" = Some (VFloat 0.01))).
Proof.
  intros Hdemo Hnone features.
  destruct (resolve_features_live W body lat lon Hdemo)
    as (_ & _ & _ & Hslope & _ & Hdisp & _).
  fold features in Hslope, Hdisp. rewrite Hnone in Hdisp.
  eexists. split; [exact Hslope|]. split.
  - intros disp Hbody Hdisp_given.
    assert (Hget : dict_get body "displacement" = disp)
      by (unfold dict_get; by rewrite Hbody).
    rewrite Hget, Hdisp_given in Hdisp. exact Hdisp.
  - intros Habsent. rewrite Habsent in Hdisp.
    split; [exact Hdisp|]. split; intros Hs; rewrite Hdisp, Hs; reflexivity.
Qed.

(** C6, as the code has it: whatever the request and the collaborators hold,
    the features handed to the classifier are exactly the six named fields,
    each bound to a float, so none is null or missing and the classifier's
    own check and conversions cannot fail on them.  Every field is finite on
    the demo-override branch, and on any branch as long as each value the
    resolver consults (the feature keys of the request, the three keys of
    the weather snapshot, the slope lookup, the sensor's vibration) is
    rejected by [float] or converts to a finite number.  Off the overrides a
    value that [float] accepts, an infinity or a NaN included, is passed on
    as it converts, whether the request gives it or a lookup returns it. *)
Theorem C6_features_are_six_floats (W : Main.World) (body : gmap string pyval)
    (lat lon : float) :
  Main.parse_coordinates body = inr (lat, lon) ->
  let features := (Main.resolve_features W body lat lon).1 in
  let lookups := (Main.resolve_features W body lat lon).2 in
  Main.predict W body = Main.classify_and_respond W features lookups /\
  dom features = list_to_set Predictor.required_keys /\
  (forall key, key ∈ Predictor.required_keys ->
     exists x, features !! key = Some (VFloat x)) /\
  Predictor.missing_keys features = [] /\
  (exists vec, Predictor.input_vec features = Some vec) /\
  (forall override, Main.demo_lookup (Main.demo_key_of lat lon) = Some override ->
     forall key x, features !! key = Some (VFloat x) -> PyFloat.is_finite x = true) /\
  ((forall key v, key ∈ request_feature_keys -> body !! key = Some v ->
      finite_or_rejected v = true) ->
   (forall key v, key ∈ snapshot_feature_keys ->
      Main.weather_data_of W lat lon !! key = Some v -> finite_or_rejected v = true) ->
   (forall v, Main.get_slope W lat lon = Returns v -> finite_or_rejected v = true) ->
   (forall sensor_state v,
      Main.get_latest_sensor_state W = Returns (VDict sensor_state) ->
      sensor_state !! "vibration" = Some v -> finite_or_rejected v = true) ->
   forall key x, features !! key = Some (VFloat x) -> PyFloat.is_finite x = true) /\
  (Main.demo_lookup (Main.demo_key_of lat lon) = None ->
   (forall key v x,
      key ∈ Predictor.required_keys -> body !! key = Some v -> float_ v = Some x ->
      features !! key = Some (VFloat x)) /\
   (forall v x,
      body !! "rainfall" = None -> Main.weather_data_of W lat lon !! "rain_1h" = None ->
      body !! "rain" = Some v -> float_ v = Some x ->
      features !! "rainfall" = Some (VFloat x)) /\
   (forall key key' v x,
      (key, key') ∈ [("rainfall", "rain_1h"); ("temperature", "temp");
                     ("wind_speed", "wind_speed")] ->
      body !! key = None -> Main.weather_data_of W lat lon !! key' = Some v ->
      float_ v = Some x ->
      features !! key = Some (VFloat x)) /\
   (forall v x,
      is_none (dict_get body "slope") = true ->
      Main.get_slope W lat lon = Returns v -> float_ v = Some x ->
      features !! "slope" = Some (VFloat x)) /\
   (forall sensor_state v x,
      is_none (dict_get body "vibration") = true ->
      Main.get_latest_sensor_state W = Returns (VDict sensor_state) ->
      sensor_state !! "vibration" = Some v -> float_ v = Some x ->
      features !! "vibration" = Some (VFloat x))).
Proof.
  intros Hcoords features lookups.
  assert (Hshape : exists raw, features = Main.coerce_features raw).
  { subst features. unfold Main.resolve_features.
    destruct (Main.demo_lookup _); [eauto|].
    destruct (Main.fill_slope _ _ _ _), (Main.fill_vibration _ _); eauto. }
  destruct Hshape as [raw Hraw].
  destruct (coerce_features_shape raw) as [Hdom Hfloats].
  rewrite <- Hraw in Hdom, Hfloats.
  assert (Hall : forall key, key ∈ Predictor.required_keys ->
                   exists x, features !! key = Some (VFloat x)).
  { intros key Hkey.
    assert (Hin : key ∈ dom features) by (rewrite Hdom; by apply elem_of_list_to_set).
    apply elem_of_dom in Hin as [v Hv].
    destruct (Hfloats key v Hv) as [x ->]. eauto. }
  assert (Hoverride : forall override,
            Main.demo_lookup (Main.demo_key_of lat lon) = Some override ->
            forall key x, features !! key = Some (VFloat x) ->
                          PyFloat.is_finite x = true).
  { intros override Hkey key x Hx.
    pose proof (demo_lookup_cases _ _ Hkey) as Hin.
    destruct (coerce_override_verbatim override Hin) as [Hdom' Hverb].
    assert (Hfeat : features = Main.coerce_features override).
    { subst features. unfold Main.resolve_features. by rewrite Hkey. }
    rewrite Hfeat in Hx.
    assert (Hk : key ∈ dom override).
    { rewrite <- Hdom'. apply elem_of_dom. eauto. }
    apply elem_of_dom in Hk as [v Hv].
    destruct (Hverb key v Hv) as (y & _ & Hfin & Hy).
    rewrite Hx in Hy. congruence. }
  split; [|split; [exact Hdom|split; [exact Hall|split; [|split; [|split; [|split]]]]]].
  - unfold Main.predict. rewrite Hcoords. subst features lookups.
    by destruct (Main.resolve_features W body lat lon).
  - unfold Predictor.missing_keys, Predictor.required_keys in *.
    cbn [List.filter].
    repeat match goal with
           | |- context [features !! ?k] =>
               let x := fresh "x" in
               destruct (Hall k ltac:(repeat constructor)) as [x ->]
           end.
    reflexivity.
  - destruct (Hall "rainfall" ltac:(repeat constructor)) as [x1 E1].
    destruct (Hall "temperature" ltac:(repeat constructor)) as [x2 E2].
    destruct (Hall "slope" ltac:(repeat constructor)) as [x3 E3].
    destruct (Hall "wind_speed" ltac:(repeat constructor)) as [x4 E4].
    destruct (Hall "displacement_rate" ltac:(repeat constructor)) as [x5 E5].
    destruct (Hall "vibration" ltac:(repeat constructor)) as [x6 E6].
    exists [x1; x2; x3; x4; x5; x6].
    unfold Predictor.input_vec, Predictor.required_keys. cbn [mapM].
    rewrite E1, E2, E3, E4, E5, E6. reflexivity.
  - exact Hoverride.
  - intros Hbody Hweather Hslope Hsensor.
    destruct (Main.demo_lookup (Main.demo_key_of lat lon)) as [override|] eqn:Hdemo.
    + by apply (Hoverride override).
    + by apply resolve_features_finite.
  - intros Hdemo.
    destruct (resolve_features_passes_on W body lat lon Hdemo)
      as (Hrequest & Hrain & Hsnapshot & Hslope & Hsensor).
    split; [exact Hrequest|]. split; [exact Hrain|]. split; [exact Hsnapshot|].
    split; [exact Hslope|exact Hsensor].
Qed.

(** C9: for a request that hits no demo override, a null [rainfall],
    [temperature] or [wind_speed] in the body resolves to the fixed default
    (10.0, 25.0, 2.0) whatever the weather snapshot holds, whereas a null
    [slope] or [vibration] makes the handler call the slope lookup or read the
    sensor state and use what it returns. *)
Theorem C9_null_feature_keys (W : Main.World) (body : gmap string pyval) (lat lon : float) :
  Main.demo_lookup (Main.demo_key_of lat lon) = None ->
  let features := (Main.resolve_features W body lat lon).1 in
  let lookups := (Main.resolve_features W body lat lon).2 in
  (body !! "rainfall" = Some VNone -> features !! "rainfall" = Some (VFloat 10.0)) /\
  (body !! "temperature" = Some VNone -> features !! "temperature" = Some (VFloat 25.0)) /\
  (body !! "wind_speed" = Some VNone -> features !! "wind_speed" = Some (VFloat 2.0)) /\
  (body !! "slope" = Some VNone ->
     GetSlope lat lon ∈ lookups /\
     features !! "slope" =
       Some (VFloat match Main.get_slope W lat lon with
                    | Returns v => Main._to_float v 30.0
                    | Raises => 30.0%float
                    end)) /\
  (body !! "vibration" = Some VNone ->
     GetLatestSensorState ∈ lookups /\
     features !! "vibration" =
       Some (VFloat match Main.get_latest_sensor_state W with
                    | Returns (VDict sensor_state) =>
                        Main._to_float
                          (dict_get_or sensor_state "vibration" (VFloat 0.0)) 0.0
                    | _ => 0.0%float
                    end)).
Proof.
  intros Hdemo features lookups.
  destruct (resolve_features_live W body lat lon Hdemo)
    as (Hrain & Htemp & Hwind & Hslope & Hvib & _ & Hcalls).
  fold features in Hrain, Htemp, Hwind, Hslope, Hvib. fold lookups in Hcalls.
  split; [|split; [|split; [|split]]].
  - intros Hnull. rewrite Hrain. unfold dict_get_or at 1. by rewrite Hnull.
  - intros Hnull. rewrite Htemp. unfold dict_get_or at 1. by rewrite Hnull.
  - intros Hnull. rewrite Hwind. unfold dict_get_or at 1. by rewrite Hnull.
  - intros Hnull. split.
    + rewrite Hcalls. unfold dict_get. rewrite Hnull. cbn.
      apply list_elem_of_further, list_elem_of_here.
    + rewrite Hslope. unfold dict_get. by rewrite Hnull.
  - intros Hnull. split.
    + rewrite Hcalls. unfold dict_get. rewrite Hnull. cbn.
      destruct (is_none _); cbn; repeat constructor.
    + rewrite Hvib. unfold dict_get. by rewrite Hnull.
Qed.

End ResolverClaims.

(** ** The alert *)

Section Alert.
Context `{Runtime}.

Lemma alert_of_matched (result : pyval) (alert : string) :
  Main.alert_of_label (lower (Main.risk_level_of result)) = Some alert ->
  Main.alert_of result = VStr alert.
Proof. unfold Main.alert_of. by intros ->. Qed.

(** The probability the fallback sees: the first truthy value of
    "probability" and "prob", else [None]. *)
Lemma prob_of_first_truthy (d : gmap string pyval) :
  Main.prob_of (VDict d) =
    if truthy (dict_get d "probability") then dict_get d "probability"
    else if truthy (dict_get d "prob") then dict_get d "prob"
    else VNone.
Proof.
  unfold Main.prob_of, or_.
  destruct (truthy (dict_get d "probability")) eqn:Hp; [by rewrite Hp|].
  reflexivity.
Qed.

Lemma alert_of_prob_truthy (v : pyval) :
  truthy v = true ->
  Main.alert_of_prob v =
    match float_ v with
    | Some p => VStr (if (0.7 <? p)%float then Main.ALERT_HIGH
                      else if (0.4 <? p)%float then Main.ALERT_MODERATE
                      else Main.ALERT_LOW)
    | None => VNone
    end.
Proof.
  intros Hv. unfold Main.alert_of_prob.
  destruct v; try discriminate; cbn [is_none]; by repeat case_match.
Qed.

Lemma risk_level_of_result (p : float) :
  Main.risk_level_of (VDict (Predictor.result_of p)) = Predictor.risk_label p.
Proof.
  unfold Main.risk_level_of.
  assert (Hrisk : dict_get (Predictor.result_of p) "risk" = VStr (Predictor.risk_label p)).
  { unfold dict_get. by destruct (result_of_lookup p) as (-> & _). }
  rewrite Hrisk. unfold or_ at 3.
  assert (Htrue : truthy (VStr (Predictor.risk_label p)) = true).
  { destruct (risk_label_cases p) as [(_ & ->)|[(_ & _ & ->)|(_ & _ & ->)]];
      reflexivity. }
  rewrite Htrue. unfold or_. by rewrite !Htrue.
Qed.

(** C8: for every result, the alert is the text of the first word found in
    the lower-cased risk label ("high", else "medium" or "moderate", else
    "low").  Every result the classifier returns, that is every
    RiskPrediction, carries one of the labels "high", "medium" and "low", so
    its alert is the text of its label and is never null.  When no word is
    found, the fallback takes the first truthy value of "probability" and
    "prob": the alert follows the thresholds (> 0.7 high, > 0.4 moderate,
    else low) on the float it converts to, and it is null only when the
    result is no dict, when neither entry holds a truthy value, or when the
    value taken does not convert. *)
Theorem C8_alert_selection (result : pyval) :
  let label := lower (Main.risk_level_of result) in
  let by_thresholds (v : pyval) :=
    match float_ v with
    | Some p => VStr (if (0.7 <? p)%float then Main.ALERT_HIGH
                      else if (0.4 <? p)%float then Main.ALERT_MODERATE
                      else Main.ALERT_LOW)
    | None => VNone
    end in
  (contains "high" label = true -> Main.alert_of result = VStr Main.ALERT_HIGH) /\
  (contains "high" label = false ->
   contains "medium" label = true \/ contains "moderate" label = true ->
   Main.alert_of result = VStr Main.ALERT_MODERATE) /\
  (contains "high" label = false -> contains "medium" label = false ->
   contains "moderate" label = false -> contains "low" label = true ->
   Main.alert_of result = VStr Main.ALERT_LOW) /\
  (forall model features prediction log,
     Predictor.predict model features = (inr prediction, log) ->
     result = VDict prediction ->
     exists risk alert,
       prediction !! "risk" = Some (VStr risk) /\
       label = risk /\
       (risk, alert) ∈ [("high", Main.ALERT_HIGH); ("medium", Main.ALERT_MODERATE);
                        ("low", Main.ALERT_LOW)] /\
       contains risk label = true /\
       Main.alert_of result = VStr alert) /\
  (contains "high" label = false -> contains "medium" label = false ->
   contains "moderate" label = false -> contains "low" label = false ->
   (forall d, result = VDict d ->
      (truthy (dict_get d "probability") = true ->
       Main.alert_of result = by_thresholds (dict_get d "probability")) /\
      (truthy (dict_get d "probability") = false -> truthy (dict_get d "prob") = true ->
       Main.alert_of result = by_thresholds (dict_get d "prob")) /\
      (truthy (dict_get d "probability") = false -> truthy (dict_get d "prob") = false ->
       Main.alert_of result = VNone)) /\
   ((forall d, result <> VDict d) -> Main.alert_of result = VNone)) /\
  (Main.alert_of result = VNone ->
   (contains "high" label = false /\ contains "medium" label = false /\
    contains "moderate" label = false /\ contains "low" label = false) /\
   ((forall d, result <> VDict d) \/
    exists d, result = VDict d /\
      ((truthy (dict_get d "probability") = false /\ truthy (dict_get d "prob") = false) \/
       (truthy (dict_get d "probability") = true /\
        float_ (dict_get d "probability") = None) \/
       (truthy (dict_get d "probability") = false /\ truthy (dict_get d "prob") = true /\
        float_ (dict_get d "prob") = None)))).
Proof.
  intros label by_thresholds.
  assert (Hfallback : Main.alert_of_label label = None ->
            Main.alert_of result = Main.alert_of_prob (Main.prob_of result)).
  { unfold Main.alert_of. fold label. by intros ->. }
  assert (Hnomatch : contains "high" label = false -> contains "medium" label = false ->
            contains "moderate" label = false -> contains "low" label = false ->
            Main.alert_of_label label = None).
  { unfold Main.alert_of_label. by intros -> -> -> ->. }
  split; [|split; [|split; [|split; [|split]]]].
  - intros Hh. apply alert_of_matched. fold label. unfold Main.alert_of_label. by rewrite Hh.
  - intros Hh Hm. apply alert_of_matched. fold label. unfold Main.alert_of_label.
    rewrite Hh. destruct Hm as [->| ->]; [reflexivity|]. by rewrite orb_true_r.
  - intros Hh Hm Hmo Hl. apply alert_of_matched. fold label. unfold Main.alert_of_label.
    by rewrite Hh, Hm, Hmo, Hl.
  - intros model features prediction log Hrun ->.
    apply predict_success in Hrun as (_ & _ & p & _ & _ & _ & _ & -> & _).
    destruct (result_of_lookup p) as (Hrisk & _).
    subst label. rewrite risk_level_of_result.
    exists (Predictor.risk_label p).
    assert (Hcases : exists alert,
              (Predictor.risk_label p, alert) ∈
                [("high", Main.ALERT_HIGH); ("medium", Main.ALERT_MODERATE);
                 ("low", Main.ALERT_LOW)] /\
              lower (Predictor.risk_label p) = Predictor.risk_label p /\
              contains (Predictor.risk_label p) (Predictor.risk_label p) = true /\
              Main.alert_of_label (lower (Predictor.risk_label p)) = Some alert).
    { destruct (risk_label_cases p) as [(_ & ->)|[(_ & _ & ->)|(_ & _ & ->)]];
        eexists; (split; [|repeat split; vm_compute; reflexivity]); repeat constructor. }
    destruct Hcases as (alert & Hin & Hlower & Hself & Halert).
    exists alert. split; [exact Hrisk|]. split; [exact Hlower|]. split; [exact Hin|].
    split; [by rewrite Hlower|].
    apply alert_of_matched. by rewrite risk_level_of_result.
  - intros Hh Hm Hmo Hl. rewrite (Hfallback (Hnomatch Hh Hm Hmo Hl)). split.
    + intros d ->. rewrite prob_of_first_truthy. split; [|split].
      * intros Hp. rewrite Hp. by apply alert_of_prob_truthy.
      * intros Hp Hq. rewrite Hp, Hq. by apply alert_of_prob_truthy.
      * by intros -> ->.
    + intros Hnot. destruct result; try reflexivity. by destruct (Hnot d).
  - intros Hnull.
    assert (Hnone : Main.alert_of_label label = None).
    { unfold Main.alert_of in Hnull. fold label in Hnull.
      by destruct (Main.alert_of_label label). }
    assert (Hwords : contains "high" label = false /\ contains "medium" label = false /\
                     contains "moderate" label = false /\ contains "low" label = false).
    { unfold Main.alert_of_label in Hnone.
      destruct (contains "high" label); [discriminate|].
      destruct (contains "medium" label); [discriminate|].
      destruct (contains "moderate" label); [discriminate|].
      by destruct (contains "low" label). }
    split; [exact Hwords|].
    rewrite (Hfallback Hnone) in Hnull.
    destruct result as [| | | | | |d]; try (left; intros d; discriminate).
    right. exists d. split; [reflexivity|].
    rewrite prob_of_first_truthy in Hnull.
    destruct (truthy (dict_get d "probability")) eqn:Hp.
    + right. left. split; [reflexivity|].
      rewrite (alert_of_prob_truthy _ Hp) in Hnull.
      by destruct (float_ (dict_get d "probability")).
    + destruct (truthy (dict_get d "prob")) eqn:Hq; [|by left].
      right. right. split; [reflexivity|]. split; [reflexivity|].
      rewrite (alert_of_prob_truthy _ Hq) in Hnull.
      by destruct (float_ (dict_get d "prob")).
Qed.

(** C10: whenever [/predict] answers 200, the classifier's risk label is one
    of "high", "medium" and "low", the substring match on it selects the
    matching one of the three alert strings, so the probability fallback is
    not used and the alert of the response is never null. *)
Theorem C10_alert_never_null (W : Main.World) (body content : gmap string pyval)
    (calls : list call) :
  Main.predict W body = (Main.JSONResponse content 200, calls) ->
  exists result label alert,
    content !! "prediction" = Some (VDict result) /\
    result !! "risk" = Some (VStr label) /\
    (label, alert) ∈ [("high", Main.ALERT_HIGH); ("medium", Main.ALERT_MODERATE);
                      ("low", Main.ALERT_LOW)] /\
    Main.alert_of_label (lower (Main.risk_level_of (VDict result))) = Some alert /\
    content !! "alert" = Some (VStr alert).
Proof.
  unfold Main.predict.
  destruct (Main.parse_coordinates body) as [bad|[lat lon]] eqn:Hcoords.
  { unfold Main.parse_coordinates in Hcoords.
    repeat case_match; try discriminate; injection Hcoords as <-; discriminate. }
  destruct (Main.resolve_features W body lat lon) as [features lookups].
  unfold Main.classify_and_respond.
  destruct (Predictor.predict (Main.model W) features) as [[e|result] model_calls] eqn:Hrun.
  { unfold Main.error_response. destruct (Predictor.is_RuntimeError e); discriminate. }
  intros [= <- <-].
  apply predict_success in Hrun as (_ & _ & p & _ & _ & _ & _ & -> & _).
  destruct (result_of_lookup p) as (Hrisk & _).
  assert (Hlabel : exists alert,
            (Predictor.risk_label p, alert) ∈
              [("high", Main.ALERT_HIGH); ("medium", Main.ALERT_MODERATE);
               ("low", Main.ALERT_LOW)] /\
            Main.alert_of_label (lower (Predictor.risk_label p)) = Some alert).
  { destruct (risk_label_cases p) as [(_ & ->)|[(_ & _ & ->)|(_ & _ & ->)]];
      eexists; (split; [|vm_compute; reflexivity]); repeat constructor. }
  destruct Hlabel as (alert & Hin & Halert).
  exists (Predictor.result_of p), (Predictor.risk_label p), alert.
  rewrite risk_level_of_result.
  split; [reflexivity|]. split; [exact Hrisk|]. split; [exact Hin|].
  split; [exact Halert|].
  assert (Hval : Main.alert_of (VDict (Predictor.result_of p)) = VStr alert).
  { apply alert_of_matched. by rewrite risk_level_of_result. }
  rewrite Hval. reflexivity.
Qed.

End Alert.

(** ** The pipeline on concrete requests *)

(** The classifier on the sample features with a model that answers 0.7. *)
Lemma C1_witness :
  Predictor.predict (H := Sample.runtime) (Sample.constant_model 0.7) Sample.six_features =
    (inr (Predictor.result_of 0.7), [PredictProba [35; 24; 38; 6; 0.09; 2.1]%float]) /\
  Predictor.result_of 0.7 !! "risk" = Some (VStr "medium").
Proof.
  assert (Hrun : Predictor.predict (H := Sample.runtime) (Sample.constant_model 0.7)
                   Sample.six_features =
                 (inr (Predictor.result_of 0.7),
                  [PredictProba [35; 24; 38; 6; 0.09; 2.1]%float]))
    by (vm_compute; reflexivity).
  split; [exact Hrun|].
  destruct (C1_risk_label_three_way_split _ _ _ _ Hrun)
    as (predict_proba & vec & p & Hmodel & _ & Hp & _ & Hmedium).
  apply Hmedium.
  injection Hmodel as <-. injection Hp as <-. reflexivity.
Defined.

(** The classifier with a model that answers 0.55: rounded probability 0.55,
    label "medium", predicted positive. *)
Lemma C2_witness :
  Predictor.predict (H := Sample.runtime) (Sample.constant_model 0.55) Sample.six_features =
    (inr (Predictor.result_of 0.55), [PredictProba [35; 24; 38; 6; 0.09; 2.1]%float]) /\
  Predictor.result_of 0.55 !! "probability" = Some (VFloat 0.55) /\
  Predictor.result_of 0.55 !! "risk" = Some (VStr "medium") /\
  Predictor.result_of 0.55 !! "rockfall_predicted" = Some (VInt 1).
Proof.
  assert (Hrun : Predictor.predict (H := Sample.runtime) (Sample.constant_model 0.55)
                   Sample.six_features =
                 (inr (Predictor.result_of 0.55),
                  [PredictProba [35; 24; 38; 6; 0.09; 2.1]%float]))
    by (vm_compute; reflexivity).
  split; [exact Hrun|].
  destruct (C2_probability_rounded_and_flag _ _ _ _ Hrun)
    as (predict_proba & vec & p & r & Hmodel & _ & Hp & Hprob & Hr & _ & _ & _ & Hmedium).
  injection Hmodel as <-. injection Hp as <-.
  split; [rewrite Hprob, Hr; vm_compute; reflexivity|].
  apply Hmedium; reflexivity.
Defined.

(** The classifier on an empty mapping, with a model loaded. *)
Lemma C7_witness :
  Predictor.missing_keys ∅ <> [] /\
  Predictor.predict (H := Sample.runtime) (Sample.constant_model 0.9) ∅ =
    (inl (Predictor.MissingInputFeatures Predictor.required_keys), []).
Proof.
  assert (Hmissing : Predictor.missing_keys ∅ <> []) by (vm_compute; discriminate).
  split; [exact Hmissing|].
  exact (proj1 (C7_missing_fields_rejected (H := Sample.runtime)
                  (fun _ => Returns 0.9%float) ∅ Hmissing)).
Defined.

(** C7 as stated fails: without a model the empty mapping, which lacks all
    six fields, is answered by the "model not loaded" error and no field is
    reported; and the handler of [/predict] answers the missing-field error
    with status 500, not 400. *)
Lemma C7_counterexample :
  Predictor.missing_keys ∅ = Predictor.required_keys /\
  Predictor.predict (H := Sample.runtime) None ∅ = (inl Predictor.ModelNotLoaded, []) /\
  Main.status_of
    (Main.error_response (Predictor.MissingInputFeatures Predictor.required_keys)) = 500.
Proof. repeat split; vm_compute; reflexivity. Qed.

(** A request near Talcher: lat=22.31, lon=84.79 round to (22.3, 84.8). *)
Lemma C3_witness :
  let talcher : gmap string pyval :=
    {[ "slope" := VInt 35; "rainfall" := VInt 40; "temperature" := VInt 30;
       "vibration" := VFloat 1.5; "wind_speed" := VFloat 6.0;
       "displacement_rate" := VFloat 0.3 ]} in
  let body : gmap string pyval :=
    {[ "lat" := VFloat 22.31; "lon" := VFloat 84.79; "slope" := VInt 80 ]} in
  Main.demo_lookup (Main.demo_key_of 22.31 84.79) = Some talcher /\
  Main.resolve_features (H := Sample.runtime) (Sample.offline 0.9) body 22.31 84.79 =
    (Main.coerce_features (H := Sample.runtime) talcher, [FetchOpenweather 22.31 84.79]).
Proof.
  intros talcher body.
  assert (Hkey : Main.demo_lookup (Main.demo_key_of 22.31 84.79) = Some talcher)
    by (vm_compute; reflexivity).
  split; [exact Hkey|].
  exact (proj1 (proj1 (C3_demo_override_replaces_features (H := Sample.runtime)
                         (Sample.offline 0.9) body) _ _ _ Hkey)).
Defined.

(** C3 as stated fails: on the request lat=23.04, lon=86.53, which hits the
    Jharia override, the handler still calls the weather service before it
    runs the model; only the slope and sensor lookups are skipped. *)
Lemma C3_counterexample :
  let body : gmap string pyval := {[ "lat" := VFloat 23.04; "lon" := VFloat 86.53 ]} in
  Main.demo_key_of 23.04 86.53 = (23.0, 86.5)%float /\
  (Main.predict (H := Sample.runtime) (Sample.offline 0.9) body).2 =
    [FetchOpenweather 23.04 86.53; PredictProba [70; 35; 50; 10; 0.5; 3.5]%float].
Proof. split; vm_compute; reflexivity. Qed.

(** A request with slope 40 and neither displacement field. *)
Lemma C5_witness :
  let body : gmap string pyval :=
    {[ "lat" := VInt 10; "lon" := VInt 20; "slope" := VInt 40 ]} in
  Main.demo_lookup (Main.demo_key_of 10 20) = None /\
  is_none (dict_get body "displacement_rate") = true /\
  (Main.resolve_features (H := Sample.runtime) (Sample.offline 0.9) body 10 20).1
    !! "displacement_rate" = Some (VFloat 0.4).
Proof.
  intros body.
  assert (Hdemo : Main.demo_lookup (Main.demo_key_of 10 20) = None)
    by (vm_compute; reflexivity).
  assert (Hnone : is_none (dict_get body "displacement_rate") = true)
    by (vm_compute; reflexivity).
  split; [exact Hdemo|]. split; [exact Hnone|].
  destruct (C5_displacement_rate (H := Sample.runtime) (Sample.offline 0.9) body
              10 20 Hdemo Hnone) as (slope & Hslope & _ & Hheuristic).
  destruct (Hheuristic ltac:(vm_compute; reflexivity)) as (_ & H40 & _).
  apply H40.
  assert (Hs : (Main.resolve_features (H := Sample.runtime) (Sample.offline 0.9) body
                  10 20).1 !! "slope" = Some (VFloat 40))
    by (vm_compute; reflexivity).
  congruence.
Defined.

(** The same request: six float features reach the classifier. *)
Lemma C6_witness :
  let body : gmap string pyval :=
    {[ "lat" := VInt 10; "lon" := VInt 20; "slope" := VInt 40 ]} in
  Main.parse_coordinates (H := Sample.runtime) body = inr (10, 20)%float /\
  dom (Main.resolve_features (H := Sample.runtime) (Sample.offline 0.9) body 10 20).1 =
    list_to_set Predictor.required_keys.
Proof.
  intros body.
  assert (Hcoords : Main.parse_coordinates (H := Sample.runtime) body = inr (10, 20)%float)
    by (vm_compute; reflexivity).
  split; [exact Hcoords|].
  exact (proj1 (proj2 (C6_features_are_six_floats (H := Sample.runtime)
                         (Sample.offline 0.9) body 10 20 Hcoords))).
Defined.

(** C6 as stated fails: a request whose [rainfall] is an infinity (the JSON
    number 1e999) has valid coordinates and reaches the classifier with a
    rainfall that is not finite. *)
Lemma C6_counterexample :
  let body : gmap string pyval :=
    {[ "lat" := VInt 10; "lon" := VInt 20; "rainfall" := VFloat infinity ]} in
  Main.parse_coordinates (H := Sample.runtime) body = inr (10, 20)%float /\
  (Main.resolve_features (H := Sample.runtime) (Sample.offline 0.9) body 10 20).1
    !! "rainfall" = Some (VFloat infinity) /\
  PyFloat.is_finite infinity = false.
Proof. repeat split; vm_compute; reflexivity. Qed.

(** A label in capitals is matched after lower-casing. *)
Lemma C8_witness :
  let result := VDict {[ "risk" := VStr "Very HIGH" ]} in
  contains "high" (lower (Main.risk_level_of (H := Sample.runtime) result)) = true /\
  Main.alert_of (H := Sample.runtime) result = VStr Main.ALERT_HIGH.
Proof.
  intros result.
  assert (Hhigh : contains "high"
                    (lower (Main.risk_level_of (H := Sample.runtime) result)) = true)
    by (vm_compute; reflexivity).
  split; [exact Hhigh|].
  exact (proj1 (C8_alert_selection (H := Sample.runtime) result) Hhigh).
Defined.

(** The fallback on results that no classifier returns: the probability is
    also read under "prob"; a probability of 0.0 is falsy and counts as
    absent; a probability that is a list does not convert. *)
Example alert_fallback_values :
  Main.alert_of (H := Sample.runtime)
    (VDict {[ "risk" := VStr "unknown"; "prob" := VFloat 0.9 ]}) = VStr Main.ALERT_HIGH /\
  Main.alert_of (H := Sample.runtime)
    (VDict {[ "risk" := VStr "unknown"; "probability" := VFloat 0.55 ]}) =
    VStr Main.ALERT_MODERATE /\
  Main.alert_of (H := Sample.runtime)
    (VDict {[ "risk" := VStr "unknown"; "probability" := VFloat 0.0 ]}) = VNone /\
  Main.alert_of (H := Sample.runtime)
    (VDict {[ "risk" := VStr "unknown"; "probability" := VList [VFloat 0.9] ]}) = VNone /\
  Main.alert_of (H := Sample.runtime) (VDict {[ "risk" := VStr "unknown" ]}) = VNone.
Proof. repeat split; vm_compute; reflexivity. Qed.

(** A request with null [rainfall] and [slope], while the weather snapshot
    holds a rain figure. *)
Lemma C9_witness :
  let body : gmap string pyval :=
    {[ "lat" := VInt 10; "lon" := VInt 20; "rainfall" := VNone; "slope" := VNone ]} in
  let W := Sample.with_weather (VDict {[ "rain_1h" := VFloat 55.0 ]}) 0.9 in
  Main.demo_lookup (Main.demo_key_of 10 20) = None /\
  (Main.resolve_features (H := Sample.runtime) W body 10 20).1 !! "rainfall" =
    Some (VFloat 10.0) /\
  GetSlope 10 20 ∈ (Main.resolve_features (H := Sample.runtime) W body 10 20).2.
Proof.
  intros body W.
  assert (Hdemo : Main.demo_lookup (Main.demo_key_of 10 20) = None)
    by (vm_compute; reflexivity).
  split; [exact Hdemo|].
  destruct (C9_null_feature_keys (H := Sample.runtime) W body 10 20 Hdemo)
    as (Hrain & _ & _ & Hslope & _).
  split.
  - apply Hrain. vm_compute. reflexivity.
  - apply Hslope. vm_compute. reflexivity.
Defined.

(** A request answered with status 200. *)
Lemma C10_witness :
  let body : gmap string pyval := {[ "lat" := VInt 10; "lon" := VInt 20 ]} in
  let answer := Main.predict (H := Sample.runtime) (Sample.offline 0.9) body in
  Main.status_of answer.1 = 200 /\
  Main.content_of answer.1 !! "alert" = Some (VStr Main.ALERT_HIGH).
Proof.
  intros body answer.
  assert (Hrun : answer = (Main.JSONResponse (Main.content_of answer.1) 200, answer.2))
    by (vm_compute; reflexivity).
  split; [vm_compute; reflexivity|].
  destruct (C10_alert_never_null (H := Sample.runtime) _ _ _ _ Hrun)
    as (result & label & alert & Hpred & Hrisk & _ & _ & Halert).
  rewrite Halert. f_equal.
  assert (Hhigh : Main.content_of answer.1 !! "alert" = Some (VStr Main.ALERT_HIGH))
    by (vm_compute; reflexivity).
  congruence.
Defined.

(** * Further properties of the classifier *)

Section ClassifierMore.
Context `{Runtime}.

Lemma ltb_leb (x y : float) :
  (x <? y)%float = true -> (x <=? y)%float = true.
Proof.
  rewrite ltb_spec, leb_spec. unfold SFltb, SFleb.
  destruct (SFcompare (Prim2SF x) (Prim2SF y)) as [[]|]; congruence.
Qed.

(** The mantissa of a binary64 number has at most 53 bits. *)
Lemma mantissa_bound (x : float) (s : bool) (m : positive) (e : Z) :
  Prim2SF x = S754_finite s m e -> Zpos m < 2 ^ 53.
Proof.
  intros Hx. pose proof (Prim2SF_valid x) as Hvalid. rewrite Hx in Hvalid.
  cbn [valid_binary] in Hvalid. unfold bounded, canonical_mantissa, fexp in Hvalid.
  apply andb_prop in Hvalid as [Hcanon _]. apply Z.eqb_eq in Hcanon.
  pose proof (digits2_pos_upper m) as Hm.
  assert (Hd : Zpos (digits2_pos m) <= 53) by (unfold FloatOps.prec in Hcanon; lia).
  eapply Z.lt_le_trans; [exact Hm|]. apply Z.pow_le_mono_r; lia.
Qed.

(** Every decimal [n / 1000] with [0 <= n <= 1000] converts to a double of
    the unit interval. *)
Lemma thousandths_in_unit_interval (n : Z) :
  0 <= n <= 1000 ->
  (0 <=? PyFloat.of_decimal false n 3)%float = true /\
  (PyFloat.of_decimal false n 3 <=? 1)%float = true.
Proof.
  intros Hn.
  assert (Hall : forallb (fun k => let r := PyFloat.of_decimal false (Z.of_nat k) 3 in
                                   (0 <=? r)%float && (r <=? 1)%float)
                         (seq 0 1001) = true) by (vm_compute; reflexivity).
  rewrite forallb_forall in Hall.
  specialize (Hall (Z.to_nat n)).
  rewrite Z2Nat.id in Hall by lia.
  apply andb_prop, Hall, in_seq. lia.
Qed.


(** Rounding a number of the unit interval to three decimals stays in the
    unit interval. *)
Lemma round3_unit_interval (p : float) :
  (0 <=? p)%float = true -> (p <=? 1)%float = true ->
  (0 <=? PyFloat.round p 3)%float = true /\
  (PyFloat.round p 3 <=? 1)%float = true.
Proof.
  intros Hlow Hhigh. unfold PyFloat.round.
  destruct (Prim2SF p) as [| | |s m e] eqn:Hp; try (split; assumption).
  pose proof (mantissa_bound p s m e Hp) as Hm.
  rewrite leb_spec, Hp in Hlow, Hhigh.
  assert (H0 : Prim2SF 0 = S754_zero false) by (vm_compute; reflexivity).
  assert (H1 : Prim2SF 1 = S754_finite false 4503599627370496 (-52))
    by (vm_compute; reflexivity).
  rewrite H0 in Hlow. rewrite H1 in Hhigh. clear H0 H1.
  assert (Hs : s = false) by (destruct s; [discriminate|reflexivity]). subst s.
  unfold SFleb in Hhigh. cbn [SFcompare] in Hhigh.
  assert (He : e <= -52 /\ Zpos m <= 2 ^ (- e)).
  { destruct (Z.compare_spec e (-52)) as [->|He|He]; [| |discriminate].
    - rewrite Pos.compare_cont_spec in Hhigh. cbn [Pos.switch_Eq] in Hhigh.
      rewrite Pos2Z.inj_compare in Hhigh.
      assert (Hpow : 2 ^ (- -52) = Zpos 4503599627370496) by (vm_compute; reflexivity).
      rewrite Hpow. split; [reflexivity|].
      destruct (Z.compare_spec (Zpos m) (Zpos 4503599627370496)) as [Heq|Hlt|Hgt];
        [rewrite Heq; reflexivity|by apply Z.lt_le_incl|discriminate Hhigh].
    - split; [by apply Z.lt_le_incl|].
      apply Z.lt_le_incl, (Z.lt_le_trans _ _ _ Hm), Z.pow_le_mono_r; clear -He; lia. }
  destruct He as [He Hmant].
  unfold PyFloat.scaled_fraction.
  replace (0 <=? e) with false by (symmetry; apply Z.leb_gt; lia).
  change (10 ^ Z.of_nat 3) with 1000.
  assert (Hden : 0 < 2 ^ (- e)) by (apply Z.pow_pos_nonneg; lia).
  destruct (round_half_even_nearest (Zpos m * 1000) (2 ^ (- e)) ltac:(lia) Hden)
    as [Hn Hnear].
  apply thousandths_in_unit_interval. split; [exact Hn|].
  generalize dependent (PyFloat.round_half_even (Z.pos m * 1000) (2 ^ (- e))).
  generalize dependent (2 ^ (- e)). clear. intros d Hmant Hden n Hn Hnear.
  nia.
Qed.

(** X1: whenever the classifier succeeds, its result comes from the
    output [p] of the model on the vector of the six features, the
    [probability] field is [round(p, 3)], and for [p] in the unit interval
    that field is in the unit interval too. *)
Theorem predictor_probability_in_unit_interval model features result log :
  Predictor.predict model features = (inr result, log) ->
  exists predict_proba vec p r,
    model = Some predict_proba /\
    Predictor.input_vec features = Some vec /\
    predict_proba vec = Returns p /\
    r = PyFloat.round p 3 /\
    result !! "probability" = Some (VFloat r) /\
    ((0 <=? p)%float = true -> (p <=? 1)%float = true ->
     (0 <=? r)%float = true /\ (r <=? 1)%float = true).
Proof.
  intros (predict_proba & vec & p & -> & _ & Hvec & Hp & -> & _)%predict_success.
  exists predict_proba, vec, p, (PyFloat.round p 3).
  destruct (result_of_lookup p) as (_ & Hprob & _).
  split; [reflexivity|]. split; [exact Hvec|]. split; [exact Hp|].
  split; [reflexivity|]. split; [exact Hprob|].
  apply round3_unit_interval.
Qed.


(** X2: the label and the flag of a result agree: "high" comes with
    [rockfall_predicted = 1] and "low" with [rockfall_predicted = 0]. *)
Theorem predictor_label_flag_consistent model features result log :
  Predictor.predict model features = (inr result, log) ->
  (result !! "risk" = Some (VStr "high") ->
   result !! "rockfall_predicted" = Some (VInt 1)) /\
  (result !! "risk" = Some (VStr "low") ->
   result !! "rockfall_predicted" = Some (VInt 0)).
Proof.
  intros (predict_proba & vec & p & _ & _ & _ & _ & -> & _)%predict_success.
  destruct (result_of_lookup p) as (-> & _ & ->).
  unfold Predictor.rockfall_label.
  destruct (risk_label_cases p) as [(H7 & ->)|[(H7 & H4 & ->)|(H7 & H4 & ->)]].
  - rewrite (ltb_trans 0.5 0.7 p eq_refl H7). split; [reflexivity|congruence].
  - split; congruence.
  - split; [congruence|]. intros _.
    destruct (0.5 <? p)%float eqn:H5; [|reflexivity].
    rewrite (above_05_above_04 p H5) in H4. discriminate.
Qed.

(** X3: the classifier reads the six required keys only: two mappings that
    agree on them get the same outcome and make the same call. *)
Theorem predictor_reads_required_keys_only model (features features' : gmap string pyval) :
  (forall key, key ∈ Predictor.required_keys -> features !! key = features' !! key) ->
  Predictor.predict model features = Predictor.predict model features'.
Proof.
  intros Hagree. unfold Predictor.predict, Predictor.missing_keys, Predictor.input_vec.
  assert (Hk : forall key, key ∈ Predictor.required_keys ->
                           features !! key = features' !! key) by exact Hagree.
  unfold Predictor.required_keys in *. cbn [List.filter mapM].
  rewrite !(Hk "rainfall"), !(Hk "temperature"), !(Hk "slope"), !(Hk "wind_speed"),
    !(Hk "displacement_rate"), !(Hk "vibration") by (repeat constructor).
  reflexivity.
Qed.

(** X4: with a model loaded and all six keys present, a value that [float]
    rejects (a null, a list, a string that is no number) makes the classifier
    raise its "prediction failed" error before the model is called. *)
Theorem predictor_rejects_unconvertible predict_proba features key v :
  Predictor.missing_keys features = [] ->
  key ∈ Predictor.required_keys ->
  features !! key = Some v ->
  float_ v = None ->
  Predictor.predict (Some predict_proba) features = (inl Predictor.PredictionFailed, []).
Proof.
  intros Hmissing Hkey Hv Hfloat. unfold Predictor.predict. rewrite Hmissing.
  assert (Hvec : Predictor.input_vec features = None); [|by rewrite Hvec].
  unfold Predictor.input_vec, Predictor.required_keys in *. cbn [mapM].
  repeat (apply elem_of_cons in Hkey as [->|Hkey];
          [rewrite Hv; cbn; rewrite Hfloat; cbn;
           repeat (destruct (_ ≫= float_); cbn; try reflexivity); reflexivity|]).
  by apply elem_of_nil in Hkey.
Qed.

(** X5: on six float features the model is called exactly once, on the
    vector rainfall, temperature, slope, wind speed, displacement rate,
    vibration, and its failure is the "prediction failed" error. *)
Theorem predictor_vector_order predict_proba features
    (rainfall temperature slope wind_speed displacement_rate vibration : float) :
  features !! "rainfall" = Some (VFloat rainfall) ->
  features !! "temperature" = Some (VFloat temperature) ->
  features !! "slope" = Some (VFloat slope) ->
  features !! "wind_speed" = Some (VFloat wind_speed) ->
  features !! "displacement_rate" = Some (VFloat displacement_rate) ->
  features !! "vibration" = Some (VFloat vibration) ->
  let vec := [rainfall; temperature; slope; wind_speed; displacement_rate; vibration] in
  Predictor.predict (Some predict_proba) features =
    (match predict_proba vec with
     | Returns p => inr (Predictor.result_of p)
     | Raises => inl Predictor.PredictionFailed
     end, [PredictProba vec]).
Proof.
  intros H1 H2 H3 H4 H5 H6 vec.
  unfold Predictor.predict, Predictor.missing_keys, Predictor.input_vec,
    Predictor.required_keys.
  cbn [List.filter mapM]. rewrite H1, H2, H3, H4, H5, H6. cbn. fold vec.
  by destruct (predict_proba vec).
Qed.

End ClassifierMore.

(** * Further properties of the handler of [/predict] *)

Section HandlerMore.
Context `{Runtime}.

(** The lookups of a request: the weather fetch, then the slope lookup and
    the sensor read when the request is off the demo overrides and gives no
    slope or vibration. *)
Lemma resolve_features_lookups (W : Main.World) (body : gmap string pyval)
    (lat lon : float) :
  (Main.resolve_features W body lat lon).2 =
    FetchOpenweather lat lon ::
    match Main.demo_lookup (Main.demo_key_of lat lon) with
    | Some _ => []
    | None =>
        (if is_none (dict_get body "slope") then [GetSlope lat lon] else [])
        ++ (if is_none (dict_get body "vibration") then [GetLatestSensorState] else [])
    end.
Proof.
  destruct (Main.demo_lookup (Main.demo_key_of lat lon)) as [override|] eqn:Hdemo.
  - unfold Main.resolve_features. by rewrite Hdemo.
  - by destruct (resolve_features_live W body lat lon Hdemo) as (_ & _ & _ & _ & _ & _ & ->).
Qed.

(** The features of any request pass the classifier's checks. *)
Lemma resolved_features_ready (W : Main.World) (body : gmap string pyval)
    (lat lon : float) :
  let features := (Main.resolve_features W body lat lon).1 in
  Predictor.missing_keys features = [] /\
  exists r t s w d v,
    features !! "rainfall" = Some (VFloat r) /\
    features !! "temperature" = Some (VFloat t) /\
    features !! "slope" = Some (VFloat s) /\
    features !! "wind_speed" = Some (VFloat w) /\
    features !! "displacement_rate" = Some (VFloat d) /\
    features !! "vibration" = Some (VFloat v) /\
    Predictor.input_vec features = Some [r; t; s; w; d; v].
Proof.
  intros features.
  assert (Hshape : exists raw, features = Main.coerce_features raw).
  { subst features. unfold Main.resolve_features.
    destruct (Main.demo_lookup _); [eauto|].
    destruct (Main.fill_slope _ _ _ _), (Main.fill_vibration _ _); eauto. }
  destruct Hshape as [raw ->].
  destruct (coerce_features_lookup raw) as (Hr & Ht & Hs & Hw & Hd & Hv).
  split.
  - unfold Predictor.missing_keys, Predictor.required_keys. cbn [List.filter].
    by rewrite Hr, Ht, Hs, Hw, Hd, Hv.
  - do 6 eexists. repeat (split; [eassumption|]).
    unfold Predictor.input_vec, Predictor.required_keys. cbn [mapM].
    by rewrite Hr, Ht, Hs, Hw, Hd, Hv.
Qed.


(** What the handler does once the coordinates are accepted. *)
Lemma handler_outcome (W : Main.World) (body : gmap string pyval) (lat lon : float) :
  Main.parse_coordinates body = inr (lat, lon) ->
  let features := (Main.resolve_features W body lat lon).1 in
  let lookups := (Main.resolve_features W body lat lon).2 in
  exists vec,
    Predictor.input_vec features = Some vec /\
    Main.predict W body =
      match Main.model W with
      | None => (model_not_loaded_answer, lookups)
      | Some predict_proba =>
          match predict_proba vec with
          | Raises => (model_not_loaded_answer, lookups ++ [PredictProba vec])
          | Returns p =>
              (Main.JSONResponse
                 {[ "features" := VDict features;
                    "prediction" := VDict (Predictor.result_of p);
                    "alert" := Main.alert_of (VDict (Predictor.result_of p)) ]}
                 200,
               lookups ++ [PredictProba vec])
          end
      end.
Proof.
  intros Hcoords features lookups.
  destruct (resolved_features_ready W body lat lon)
    as (Hmissing & r & t & s & w & d & v & _ & _ & _ & _ & _ & _ & Hvec).
  fold features in Hmissing, Hvec.
  exists [r; t; s; w; d; v]. split; [exact Hvec|].
  unfold Main.predict. rewrite Hcoords.
  destruct (Main.resolve_features W body lat lon) as [features' lookups'] eqn:Hres.
  cbn [fst snd] in features, lookups. subst features lookups.
  unfold Main.classify_and_respond, Predictor.predict.
  destruct (Main.model W) as [predict_proba|]; [|by rewrite app_nil_r].
  rewrite Hmissing, Hvec.
  by destruct (predict_proba [r; t; s; w; d; v]).
Qed.

(** X6: a request with no latitude or no longitude is answered 400 before
    any collaborator is called; an explicit null under "lat" (or "lon") is
    not replaced by the value under "latitude" (or "longitude"). *)
Theorem predict_missing_coordinates (W : Main.World) (body : gmap string pyval) :
  body !! "lat" = Some VNone \/
  (body !! "lat" = None /\ dict_get body "latitude" = VNone) \/
  body !! "lon" = Some VNone \/
  (body !! "lon" = None /\ dict_get body "longitude" = VNone) ->
  Main.predict W body =
    (Main.JSONResponse
       {[ "error" := VStr "Please provide 'lat' and 'lon' (or 'latitude' and 'longitude') in request body." ]}
       400, []).
Proof.
  intros Hcase. unfold Main.predict, Main.parse_coordinates.
  destruct Hcase as [Hlat|[[Hlat Hlatitude]|[Hlon|[Hlon Hlongitude]]]].
  - by rewrite Hlat.
  - by rewrite Hlat, Hlatitude.
  - rewrite Hlon. cbn [is_none]. by rewrite orb_true_r.
  - rewrite Hlon, Hlongitude. cbn [is_none]. by rewrite orb_true_r.
Qed.

(** X7: coordinates that are given, under "lat" and "lon" or under
    "latitude" and "longitude" when the short key is absent, but that
    [float] rejects are answered 400 with the "must be numeric" message,
    before any collaborator is called. *)
Theorem predict_non_numeric_coordinates (W : Main.World) (body : gmap string pyval)
    (lat lon : pyval) :
  body !! "lat" = Some lat \/ (body !! "lat" = None /\ body !! "latitude" = Some lat) ->
  body !! "lon" = Some lon \/ (body !! "lon" = None /\ body !! "longitude" = Some lon) ->
  is_none lat = false -> is_none lon = false ->
  float_ lat = None \/ float_ lon = None ->
  Main.predict W body =
    (Main.JSONResponse {[ "error" := VStr "Latitude and longitude must be numeric" ]} 400,
     []).
Proof.
  intros Hlat Hlon Hnlat Hnlon Hbad. unfold Main.predict, Main.parse_coordinates.
  replace (match body !! "lat" with Some v => v | None => dict_get body "latitude" end)
    with lat
    by (destruct Hlat as [->|[-> Hl]]; [done|unfold dict_get; by rewrite Hl]).
  replace (match body !! "lon" with Some v => v | None => dict_get body "longitude" end)
    with lon
    by (destruct Hlon as [->|[-> Hl]]; [done|unfold dict_get; by rewrite Hl]).
  rewrite Hnlat, Hnlon. cbn [orb].
  destruct Hbad as [-> | Hb]; [reflexivity|].
  rewrite Hb. by destruct (float_ lat).
Qed.

(** X8: the coordinates are read under "lat" and "lon", or under "latitude"
    and "longitude" when those keys are absent; when both names are present
    the short one is used. *)
Theorem parse_coordinates_aliases (body : gmap string pyval) (lat lon : pyval)
    (x y : float) :
  body !! "lat" = Some lat \/ (body !! "lat" = None /\ body !! "latitude" = Some lat) ->
  body !! "lon" = Some lon \/ (body !! "lon" = None /\ body !! "longitude" = Some lon) ->
  float_ lat = Some x -> float_ lon = Some y ->
  Main.parse_coordinates body = inr (x, y).
Proof.
  intros Hlat Hlon Hx Hy. unfold Main.parse_coordinates.
  assert (Hnlat : is_none lat = false) by (destruct lat; [discriminate|done..]).
  assert (Hnlon : is_none lon = false) by (destruct lon; [discriminate|done..]).
  replace (match body !! "lat" with Some v => v | None => dict_get body "latitude" end)
    with lat
    by (destruct Hlat as [->|[-> Hl]]; [done|unfold dict_get; by rewrite Hl]).
  replace (match body !! "lon" with Some v => v | None => dict_get body "longitude" end)
    with lon
    by (destruct Hlon as [->|[-> Hl]]; [done|unfold dict_get; by rewrite Hl]).
  by rewrite Hnlat, Hnlon, Hx, Hy.
Qed.

(** X9: the status the handler hands to [JSONResponse] is 200, 400 or 503;
    the 500 answer for a non-runtime error of the classifier is never built,
    because the features always pass its field check. *)
Theorem predict_status_codes (W : Main.World) (body : gmap string pyval) :
  Main.status_of (Main.predict W body).1 ∈ [200; 400; 503].
Proof.
  destruct (Main.parse_coordinates body) as [bad|[lat lon]] eqn:Hcoords.
  - unfold Main.predict. rewrite Hcoords.
    unfold Main.parse_coordinates in Hcoords.
    repeat case_match; try discriminate; injection Hcoords as <-;
      cbn; repeat constructor.
  - destruct (handler_outcome W body lat lon Hcoords) as (vec & _ & ->).
    destruct (Main.model W) as [predict_proba|]; [destruct (predict_proba vec)|];
      cbn; repeat constructor.
Qed.

(** X10: once the coordinates are accepted, the status and the content the
    handler hands to [JSONResponse] depend on the model alone: without a
    model they are 503 and the "model not loaded" message, and the model is
    not called; for a model that raises on the feature vector they are the
    same 503 and message; for a model that returns [p] they are 200 and a
    content holding the resolved features and the classifier's result for
    [p].  How [JSONResponse] renders that content is not part of the
    statement. *)
Theorem predict_answers (W : Main.World) (body : gmap string pyval) (lat lon : float) :
  Main.parse_coordinates body = inr (lat, lon) ->
  let features := (Main.resolve_features W body lat lon).1 in
  let lookups := (Main.resolve_features W body lat lon).2 in
  exists vec,
    Predictor.input_vec features = Some vec /\
    (Main.model W = None ->
     Main.predict W body = (model_not_loaded_answer, lookups)) /\
    (forall predict_proba,
       Main.model W = Some predict_proba -> predict_proba vec = Raises ->
       Main.predict W body = (model_not_loaded_answer, lookups ++ [PredictProba vec])) /\
    (forall predict_proba p,
       Main.model W = Some predict_proba -> predict_proba vec = Returns p ->
       (Main.predict W body).2 = lookups ++ [PredictProba vec] /\
       Main.status_of (Main.predict W body).1 = 200 /\
       Main.content_of (Main.predict W body).1 !! "features" = Some (VDict features) /\
       Main.content_of (Main.predict W body).1 !! "prediction" =
         Some (VDict (Predictor.result_of p))).
Proof.
  intros Hcoords features lookups.
  destruct (handler_outcome W body lat lon Hcoords) as (vec & Hvec & Hrun).
  fold features lookups in Hvec, Hrun.
  exists vec. split; [exact Hvec|]. rewrite Hrun. split; [|split].
  - by intros ->.
  - by intros predict_proba -> ->.
  - intros predict_proba p -> ->. cbn [fst snd Main.status_of Main.content_of].
    repeat split; reflexivity.
Qed.

(** X11: every collaborator is called at most once per request and in a fixed
    order: weather, slope, sensor state, model; a request that makes any call
    has accepted coordinates and starts with the weather fetch at them. *)
Theorem predict_call_order (W : Main.World) (body : gmap string pyval) :
  exists lat lon vec,
    sublist (Main.predict W body).2
      [FetchOpenweather lat lon; GetSlope lat lon; GetLatestSensorState;
       PredictProba vec] /\
    ((Main.predict W body).2 <> [] ->
     Main.parse_coordinates body = inr (lat, lon) /\
     head (Main.predict W body).2 = Some (FetchOpenweather lat lon)).
Proof.
  destruct (Main.parse_coordinates body) as [bad|[lat lon]] eqn:Hcoords.
  - exists 0%float, 0%float, []. unfold Main.predict. rewrite Hcoords. cbn [snd].
    split; [apply sublist_nil_l|done].
  - destruct (handler_outcome W body lat lon Hcoords) as (vec & _ & ->).
    exists lat, lon, vec. rewrite resolve_features_lookups.
    assert (Hmodel : forall pre,
              sublist pre [GetSlope lat lon; GetLatestSensorState] ->
              sublist (FetchOpenweather lat lon :: pre)
                [FetchOpenweather lat lon; GetSlope lat lon; GetLatestSensorState;
                 PredictProba vec] /\
              sublist ((FetchOpenweather lat lon :: pre) ++ [PredictProba vec])
                [FetchOpenweather lat lon; GetSlope lat lon; GetLatestSensorState;
                 PredictProba vec]).
    { intros pre Hpre. split.
      - apply sublist_skip.
        change [GetSlope lat lon; GetLatestSensorState; PredictProba vec]
          with ([GetSlope lat lon; GetLatestSensorState] ++ [PredictProba vec]).
        by apply sublist_inserts_r.
      - cbn [app]. apply sublist_skip.
        change [GetSlope lat lon; GetLatestSensorState; PredictProba vec]
          with ([GetSlope lat lon; GetLatestSensorState] ++ [PredictProba vec]).
        by apply sublist_app. }
    assert (Hpre : sublist
              match Main.demo_lookup (Main.demo_key_of lat lon) with
              | Some _ => []
              | None =>
                  (if is_none (dict_get body "slope") then [GetSlope lat lon] else [])
                  ++ (if is_none (dict_get body "vibration")
                      then [GetLatestSensorState] else [])
              end
              [GetSlope lat lon; GetLatestSensorState]).
    { destruct (Main.demo_lookup _); [apply sublist_nil_l|].
      destruct (is_none (dict_get body "slope")), (is_none (dict_get body "vibration"));
        cbn [app]; repeat first [apply sublist_nil_l | apply sublist_skip | apply sublist_cons]. }
    destruct (Hmodel _ Hpre) as [Hwithout Hwith].
    split.
    + destruct (Main.model W) as [predict_proba|]; [destruct (predict_proba vec)|];
        cbn [snd]; assumption.
    + intros _. split; [reflexivity|].
      destruct (Main.model W) as [predict_proba|]; [destruct (predict_proba vec)|];
        reflexivity.
Qed.


(** X12: the slope lookup is never called for a request that gives a slope,
    and the sensor state is never read for a request that gives a vibration,
    whatever the coordinates. *)
Theorem predict_skips_supplied_lookups (W : Main.World) (body : gmap string pyval) :
  (is_none (dict_get body "slope") = false ->
   forall lat lon, GetSlope lat lon ∉ (Main.predict W body).2) /\
  (is_none (dict_get body "vibration") = false ->
   GetLatestSensorState ∉ (Main.predict W body).2).
Proof.
  assert (Hcalls : forall c,
            c ∈ (Main.predict W body).2 ->
            exists lat lon,
              c = FetchOpenweather lat lon \/
              (c = GetSlope lat lon /\ is_none (dict_get body "slope") = true) \/
              (c = GetLatestSensorState /\ is_none (dict_get body "vibration") = true) \/
              exists vec, c = PredictProba vec).
  { intros c Hc.
    destruct (Main.parse_coordinates body) as [bad|[lat lon]] eqn:Hcoords.
    { unfold Main.predict in Hc. rewrite Hcoords in Hc. by apply elem_of_nil in Hc. }
    exists lat, lon.
    destruct (handler_outcome W body lat lon Hcoords) as (vec & _ & Hrun).
    rewrite Hrun, resolve_features_lookups in Hc. clear Hrun.
    assert (Hin : c ∈ (FetchOpenweather lat lon ::
                       (if is_none (dict_get body "slope") then [GetSlope lat lon] else [])
                       ++ (if is_none (dict_get body "vibration")
                           then [GetLatestSensorState] else []))
                      ++ [PredictProba vec]).
    { destruct (Main.model W) as [predict_proba|]; [destruct (predict_proba vec)|];
        cbn [snd] in Hc;
        destruct (Main.demo_lookup _);
        rewrite ?elem_of_app, ?elem_of_cons in *; tauto. }
    rewrite elem_of_app, elem_of_cons, elem_of_app in Hin.
    destruct Hin as [[->|[Hin|Hin]]|Hin].
    - tauto.
    - destruct (is_none (dict_get body "slope"));
        [apply list_elem_of_singleton in Hin; tauto|by apply elem_of_nil in Hin].
    - destruct (is_none (dict_get body "vibration"));
        [apply list_elem_of_singleton in Hin; tauto|by apply elem_of_nil in Hin].
    - apply list_elem_of_singleton in Hin. eauto. }
  split.
  - intros Hgiven lat lon Hin.
    destruct (Hcalls _ Hin) as (a & b & [Hc|[[_ Hc]|[[Hc _]|[vec Hc]]]]);
      congruence.
  - intros Hgiven Hin.
    destruct (Hcalls _ Hin) as (a & b & [Hc|[[Hc _]|[[_ Hc]|[vec Hc]]]]);
      congruence.
Qed.



(** X14: off the demo overrides, when the request gives none of the feature
    fields and the three lookups all raise, the classifier receives rainfall
    10, temperature 25, slope 30, wind speed 2, vibration 0 and the
    displacement rate derived from the fallback slope, 0.01 * 30. *)
Theorem degraded_features (W : Main.World) (body : gmap string pyval) (lat lon : float) :
  Main.demo_lookup (Main.demo_key_of lat lon) = None ->
  (forall key, key ∈ ["slope"; "rainfall"; "rain"; "temperature"; "vibration";
                      "wind_speed"; "displacement_rate"; "displacement"] ->
               body !! key = None) ->
  Main.fetch_openweather W lat lon = Raises ->
  Main.get_slope W lat lon = Raises ->
  Main.get_latest_sensor_state W = Raises ->
  let features := (Main.resolve_features W body lat lon).1 in
  features !! "rainfall" = Some (VFloat 10.0) /\
  features !! "temperature" = Some (VFloat 25.0) /\
  features !! "slope" = Some (VFloat 30.0) /\
  features !! "wind_speed" = Some (VFloat 2.0) /\
  features !! "displacement_rate" = Some (VFloat 0.3) /\
  features !! "vibration" = Some (VFloat 0.0).
Proof.
  intros Hdemo Hbody Hweather Hslope Hsensor features.
  destruct (resolve_features_live W body lat lon Hdemo)
    as (Hr & Ht & Hw & Hs & Hv & Hd & _).
  fold features in Hr, Ht, Hw, Hs, Hv, Hd.
  assert (Hwd : Main.weather_data_of W lat lon = ∅)
    by (unfold Main.weather_data_of; by rewrite Hweather).
  rewrite Hwd in Hr, Ht, Hw. rewrite Hslope in Hs, Hd. rewrite Hsensor in Hv.
  unfold dict_get_or, dict_get in *.
  rewrite !Hbody in * by (repeat constructor).
  rewrite !lookup_empty in *. cbn [from_option id is_none] in *.
  rewrite Hr, Ht, Hw, Hs, Hv, Hd. repeat split; reflexivity.
Qed.

(** X15: of the weather snapshot, the handler reads the entries "rain_1h",
    "temp" and "wind_speed" only: two worlds whose snapshots agree on them,
    and whose slope lookup and sensor read answer alike, resolve the same
    features. *)
Theorem weather_snapshot_keys_read (W W' : Main.World) (body : gmap string pyval)
    (lat lon : float) :
  (forall key, key ∈ ["rain_1h"; "temp"; "wind_speed"] ->
     Main.weather_data_of W lat lon !! key = Main.weather_data_of W' lat lon !! key) ->
  Main.get_slope W lat lon = Main.get_slope W' lat lon ->
  Main.get_latest_sensor_state W = Main.get_latest_sensor_state W' ->
  (Main.resolve_features W body lat lon).1 = (Main.resolve_features W' body lat lon).1.
Proof.
  intros Hkeys Hslope Hsensor.
  assert (Hbase : Main.base_features body (Main.weather_data_of W lat lon) =
                  Main.base_features body (Main.weather_data_of W' lat lon)).
  { unfold Main.base_features, dict_get_or.
    by rewrite !(Hkeys "rain_1h"), !(Hkeys "temp"), !(Hkeys "wind_speed")
      by (repeat constructor). }
  unfold Main.resolve_features. rewrite Hbase.
  destruct (Main.demo_lookup _); [reflexivity|].
  unfold Main.fill_slope, Main.fill_vibration. by rewrite Hslope, Hsensor.
Qed.

(** X16: off the demo overrides, a displacement rate derived from the slope
    (the request gives neither [displacement_rate] nor [displacement]) is
    never below 0.01, whatever the slope is, negative or NaN included. *)
Theorem displacement_rate_floor (W : Main.World) (body : gmap string pyval)
    (lat lon : float) :
  Main.demo_lookup (Main.demo_key_of lat lon) = None ->
  is_none (dict_get body "displacement_rate") = true ->
  is_none (dict_get body "displacement") = true ->
  exists rate,
    (Main.resolve_features W body lat lon).1 !! "displacement_rate" = Some (VFloat rate) /\
    (0.01 <=? rate)%float = true.
Proof.
  intros Hdemo Hrate Hdisp.
  destruct (resolve_features_live W body lat lon Hdemo) as (_ & _ & _ & _ & _ & Hd & _).
  rewrite Hrate, Hdisp in Hd. eexists. split; [exact Hd|].
  unfold PyFloat.max.
  destruct (0.01 <? _)%float eqn:Hlt; [by apply ltb_leb|reflexivity].
Qed.

(** X17: when the sensor read returns a dict, [/sensors/vibration] reports the
    very vibration that [/predict] hands to the classifier for a request off
    the demo overrides that gives no vibration; when the read raises,
    [/sensors/vibration] raises while [/predict] goes on with 0.0. *)
Theorem vibration_endpoints_agree (W : Main.World) (body : gmap string pyval)
    (lat lon : float) :
  Main.demo_lookup (Main.demo_key_of lat lon) = None ->
  is_none (dict_get body "vibration") = true ->
  let features := (Main.resolve_features W body lat lon).1 in
  (forall state,
     Main.get_latest_sensor_state W = Returns (VDict state) ->
     exists v,
       Sensors.vibration W =
         (Returns {[ "vibration" := VFloat v ]}, [GetLatestSensorState]) /\
       features !! "vibration" = Some (VFloat v)) /\
  (Main.get_latest_sensor_state W = Raises ->
   Sensors.vibration W = (Raises, [GetLatestSensorState]) /\
   features !! "vibration" = Some (VFloat 0.0)).
Proof.
  intros Hdemo Hvib features.
  destruct (resolve_features_live W body lat lon Hdemo) as (_ & _ & _ & _ & Hv & _).
  fold features in Hv. rewrite Hvib in Hv. unfold Sensors.vibration. split.
  - intros state Hstate. rewrite Hstate in Hv |- *.
    eexists. split; [reflexivity|]. rewrite Hv. do 2 f_equal.
    unfold dict_get_or, dict_get, Main._to_float.
    destruct (state !! "vibration") as [[]|]; reflexivity.
  - intros Hraise. rewrite Hraise in Hv |- *. by rewrite Hv.
Qed.

End HandlerMore.

(** * The rainfall of [/weather] *)

Section WeatherRain.
Context `{Runtime}.

Lemma truthy_dict_nonempty (d : gmap string pyval) :
  d <> ∅ -> truthy (VDict d) = true.
Proof.
  intros Hd. cbn [truthy]. by rewrite bool_decide_eq_false_2.
Qed.

Lemma weather_summary_rainfall_owm (nasa_data : Main.ordered) (owm_data : gmap string pyval) :
  owm_data <> ∅ ->
  Main.weather_summary_rainfall nasa_data (VDict owm_data) =
    (fun v => match float_ v with Some f => VFloat f | None => VNone end)
      <$> Main.owm_rainfall owm_data.
Proof.
  intros Hd. unfold Main.weather_summary_rainfall. by rewrite truthy_dict_nonempty.
Qed.

(** X18: with OpenWeather data that is a non-empty dict, the summary of
    [/weather] reports rainfall 0.0 whenever the "rain" entry of that dict is
    absent or is not a dict, whatever the NASA data holds: a rain figure
    given as a plain number is not used. *)
Theorem weather_rain_without_dict (nasa_data : Main.ordered)
    (owm_data : gmap string pyval) :
  owm_data <> ∅ ->
  owm_data !! "rain" = None \/
  (exists v, owm_data !! "rain" = Some v /\ forall d, v <> VDict d) ->
  Main.weather_summary_rainfall nasa_data (VDict owm_data) = Some (VFloat 0.0).
Proof.
  intros Hne Hrain. rewrite weather_summary_rainfall_owm by exact Hne.
  unfold Main.owm_rainfall, dict_get_or.
  destruct Hrain as [->|(v & -> & Hv)]; [reflexivity|]. cbn [from_option id].
  destruct v; try reflexivity. by destruct (Hv d).
Qed.

(** X19: with OpenWeather data holding a dict under "rain", whatever the
    NASA data holds: a truthy "1h" figure is the one reported, whatever "3h"
    holds; otherwise a non-zero float under "3h" is divided by 3, and a
    truthy "3h" that is no number makes the handler raise. *)
Theorem weather_rain_from_dict (nasa_data : Main.ordered)
    (owm_data rain_data : gmap string pyval) :
  owm_data !! "rain" = Some (VDict rain_data) ->
  (truthy (dict_get rain_data "1h") = true ->
   Main.weather_summary_rainfall nasa_data (VDict owm_data) =
     Some match float_ (dict_get rain_data "1h") with
          | Some f => VFloat f
          | None => VNone
          end) /\
  (truthy (dict_get rain_data "1h") = false ->
   (forall g, rain_data !! "3h" = Some (VFloat g) -> (g =? 0)%float = false ->
      Main.weather_summary_rainfall nasa_data (VDict owm_data) =
        Some (VFloat (if (g / 3 =? 0)%float then 0.0 else g / 3))) /\
   (forall s, rain_data !! "3h" = Some (VStr s) -> s <> "" ->
      Main.weather_summary_rainfall nasa_data (VDict owm_data) = None) /\
   (truthy (dict_get rain_data "3h") = false ->
      Main.weather_summary_rainfall nasa_data (VDict owm_data) = Some (VFloat 0.0))).
Proof.
  intros Hrain.
  assert (Hne : owm_data <> ∅).
  { intros ->. by rewrite lookup_empty in Hrain. }
  assert (Hfig : Main.owm_rainfall owm_data =
                 (if truthy (dict_get rain_data "1h") then Some (dict_get rain_data "1h")
                  else if truthy (dict_get rain_data "3h")
                       then truediv3 (dict_get_or rain_data "3h" (VInt 0))
                       else Some (VInt 0))
                 ≫= fun rainfall => Some (or_ rainfall (VFloat 0.0))).
  { unfold Main.owm_rainfall, dict_get_or at 1. by rewrite Hrain. }
  rewrite weather_summary_rainfall_owm by exact Hne. rewrite Hfig. clear Hfig. split.
  - intros H1. rewrite H1. cbn. unfold or_. by rewrite H1.
  - intros H1. rewrite H1. split; [|split].
    + intros g Hg Hnz.
      assert (H3 : dict_get rain_data "3h" = VFloat g)
        by (unfold dict_get; by rewrite Hg).
      rewrite H3. cbn [truthy]. rewrite Hnz. cbn [negb].
      unfold dict_get_or. rewrite Hg. cbn. unfold or_. cbn [truthy].
      by destruct (g / 3 =? 0)%float.
    + intros s Hs Hne'.
      assert (H3 : dict_get rain_data "3h" = VStr s)
        by (unfold dict_get; by rewrite Hs).
      rewrite H3. cbn [truthy].
      assert (Hneq : String.eqb s "" = false) by (by apply String.eqb_neq).
      rewrite Hneq. cbn [negb]. unfold dict_get_or. by rewrite Hs.
    + by intros ->.
Qed.

(** X20: when the OpenWeather data is falsy (null or an empty dict) the
    rainfall comes from the NASA data alone.  It is null when the lookup of
    the parameters fails and when "T2M" holds a truthy value that is no
    dict, since the exception ends the [try] block before rainfall is
    assigned; with "T2M" absent or a dict, it is the last value of the
    "PRECTOTCORR" series converted to a float, null when that fails. *)
Theorem weather_nasa_fallback (nasa_data : Main.ordered) (owm_data : pyval) :
  truthy owm_data = false ->
  let parameter :=
    Main.ordered_item nasa_data "properties" ≫= fun p => Main.ordered_item p "parameter" in
  (parameter = None \/ (exists o, parameter = Some o /\ forall entries, o <> Main.ODict entries) ->
   Main.weather_summary_rainfall nasa_data owm_data = Some VNone) /\
  (forall entries, parameter = Some (Main.ODict entries) ->
     (forall t2m, Main.entry_of "T2M" entries = Some t2m ->
        Main.ordered_truthy t2m = true -> (forall series, t2m <> Main.ODict series) ->
        Main.weather_summary_rainfall nasa_data owm_data = Some VNone) /\
     (Main.entry_of "T2M" entries = None \/
      (exists series, Main.entry_of "T2M" entries = Some (Main.ODict series)) ->
      (Main.entry_of "PRECTOTCORR" entries = None ->
         Main.weather_summary_rainfall nasa_data owm_data = Some VNone) /\
      (forall series key v,
         Main.entry_of "PRECTOTCORR" entries = Some (Main.ODict (series ++ [(key, v)])) ->
         Main.weather_summary_rainfall nasa_data owm_data =
           Some match Main.ordered_float v with
                | Some f => VFloat f
                | None => VNone
                end))).
Proof.
  intros Hfalsy parameter. unfold Main.weather_summary_rainfall. rewrite Hfalsy.
  unfold Main.nasa_rainfall. fold parameter. split.
  - intros [->|(o & -> & Ho)]; [reflexivity|].
    destruct o; try reflexivity. by destruct (Ho entries).
  - intros entries ->. cbn [mbind option_bind Main.ordered_get].
    assert (Hlast : forall series, Main.ordered_truthy (Main.ODict series) = true ->
              exists v, Main.ordered_last_value (Main.ODict series) = Some v).
    { intros series Hs. cbn [Main.ordered_last_value].
      destruct series as [|kv series]; [discriminate Hs|].
      destruct (last ((kv :: series).*2)) as [v|] eqn:Hv; [eauto|].
      apply last_None in Hv. discriminate Hv. }
    split.
    + intros t2m -> Htruthy Hshape. cbn [from_option id]. rewrite Htruthy.
      destruct t2m; try reflexivity. by destruct (Hshape entries0).
    + intros Ht2m.
      assert (Hpass : exists t2m, default (Main.ODict []) (Main.entry_of "T2M" entries) = t2m /\
                (if Main.ordered_truthy t2m then Main.ordered_last_value t2m
                 else Some Main.ONone) <> None).
      { destruct Ht2m as [->|(series & ->)]; cbn [from_option id]; eexists; split;
          try reflexivity; [discriminate|].
        destruct (Main.ordered_truthy (Main.ODict series)) eqn:Hs; [|discriminate].
        destruct (Hlast series Hs) as (v & ->). discriminate. }
      destruct Hpass as (t2m & -> & Hpass).
      destruct (if Main.ordered_truthy t2m then Main.ordered_last_value t2m
                else Some Main.ONone) as [x|]; [clear Hpass|by destruct Hpass].
      cbn [mbind option_bind]. split.
      * intros ->. reflexivity.
      * intros series key v ->. cbn [from_option id].
        assert (Htruthy : Main.ordered_truthy (Main.ODict (series ++ [(key, v)])) = true)
          by (by destruct series).
        rewrite Htruthy. cbn [Main.ordered_last_value].
        rewrite fmap_app. change ([(key, v)].*2) with [v]. rewrite last_snoc. reflexivity.
Qed.

End WeatherRain.

(** * The further properties on concrete requests *)

Lemma predictor_probability_in_unit_interval_witness :
  Predictor.predict (H := Sample.runtime) (Sample.constant_model 0.55) Sample.six_features =
    (inr (Predictor.result_of 0.55), [PredictProba [35; 24; 38; 6; 0.09; 2.1]%float]) /\
  exists r, r = PyFloat.round 0.55 3 /\
            Predictor.result_of 0.55 !! "probability" = Some (VFloat r) /\
            (0 <=? r)%float = true /\ (r <=? 1)%float = true.
Proof.
  assert (Hrun : Predictor.predict (H := Sample.runtime) (Sample.constant_model 0.55)
                   Sample.six_features =
                 (inr (Predictor.result_of 0.55),
                  [PredictProba [35; 24; 38; 6; 0.09; 2.1]%float]))
    by (vm_compute; reflexivity).
  split; [exact Hrun|].
  destruct (predictor_probability_in_unit_interval _ _ _ _ Hrun)
    as (predict_proba & vec & p & r & Hmodel & _ & Hp & Hr & Hprob & Hrange).
  injection Hmodel as <-. injection Hp as <-.
  exists r. split; [exact Hr|]. split; [exact Hprob|]. apply Hrange; reflexivity.
Defined.

Lemma predictor_label_flag_consistent_witness :
  Predictor.predict (H := Sample.runtime) (Sample.constant_model 0.9) Sample.six_features =
    (inr (Predictor.result_of 0.9), [PredictProba [35; 24; 38; 6; 0.09; 2.1]%float]) /\
  Predictor.result_of 0.9 !! "rockfall_predicted" = Some (VInt 1).
Proof.
  assert (Hrun : Predictor.predict (H := Sample.runtime) (Sample.constant_model 0.9)
                   Sample.six_features =
                 (inr (Predictor.result_of 0.9),
                  [PredictProba [35; 24; 38; 6; 0.09; 2.1]%float]))
    by (vm_compute; reflexivity).
  split; [exact Hrun|].
  apply (proj1 (predictor_label_flag_consistent _ _ _ _ Hrun)).
  vm_compute. reflexivity.
Defined.

Lemma predictor_reads_required_keys_only_witness :
  Predictor.predict (H := Sample.runtime) (Sample.constant_model 0.9) Sample.six_features =
  Predictor.predict (H := Sample.runtime) (Sample.constant_model 0.9)
    (<["humidity" := VInt 80]> Sample.six_features).
Proof.
  apply predictor_reads_required_keys_only.
  intros key Hkey.
  repeat (apply elem_of_cons in Hkey as [->|Hkey]; [reflexivity|]).
  by apply elem_of_nil in Hkey.
Defined.

Lemma predictor_rejects_unconvertible_witness :
  Predictor.predict (H := Sample.runtime) (Sample.constant_model 0.9)
    (<["slope" := VNone]> Sample.six_features) =
    (inl Predictor.PredictionFailed, []).
Proof.
  apply (predictor_rejects_unconvertible (H := Sample.runtime) _ _ "slope" VNone).
  - vm_compute. reflexivity.
  - repeat constructor.
  - reflexivity.
  - reflexivity.
Defined.

Lemma predictor_vector_order_witness :
  let features : gmap string pyval :=
    {[ "vibration" := VFloat 6; "displacement_rate" := VFloat 5; "wind_speed" := VFloat 4;
       "slope" := VFloat 3; "temperature" := VFloat 2; "rainfall" := VFloat 1 ]} in
  Predictor.predict (H := Sample.runtime) (Sample.constant_model 0.9) features =
    (inr (Predictor.result_of 0.9), [PredictProba [1; 2; 3; 4; 5; 6]%float]).
Proof.
  intros features.
  exact (predictor_vector_order (H := Sample.runtime) (fun _ => Returns 0.9%float) features
           1 2 3 4 5 6 eq_refl eq_refl eq_refl eq_refl eq_refl eq_refl).
Defined.

Lemma predict_missing_coordinates_witness :
  let body : gmap string pyval :=
    {[ "lat" := VNone; "latitude" := VFloat 23.0; "lon" := VFloat 86.5 ]} in
  body !! "lat" = Some VNone /\
  Main.status_of (Main.predict (H := Sample.runtime) (Sample.offline 0.9) body).1 = 400 /\
  (Main.predict (H := Sample.runtime) (Sample.offline 0.9) body).2 = [].
Proof.
  intros body.
  assert (Hnull : body !! "lat" = Some VNone) by reflexivity.
  split; [exact Hnull|].
  rewrite (predict_missing_coordinates (H := Sample.runtime) (Sample.offline 0.9) body
             (or_introl Hnull)).
  split; reflexivity.
Defined.

Lemma predict_non_numeric_coordinates_witness :
  let body : gmap string pyval := {[ "latitude" := VList []; "lon" := VInt 3 ]} in
  Main.status_of (Main.predict (H := Sample.runtime) (Sample.offline 0.9) body).1 = 400 /\
  (Main.predict (H := Sample.runtime) (Sample.offline 0.9) body).2 = [].
Proof.
  intros body.
  rewrite (predict_non_numeric_coordinates (H := Sample.runtime) (Sample.offline 0.9) body
             (VList []) (VInt 3) (or_intror (conj eq_refl eq_refl)) (or_introl eq_refl)
             eq_refl eq_refl (or_introl eq_refl)).
  split; reflexivity.
Defined.

Lemma parse_coordinates_aliases_witness :
  let body : gmap string pyval :=
    {[ "latitude" := VInt 23; "lon" := VFloat 86.5; "longitude" := VInt 0 ]} in
  Main.parse_coordinates (H := Sample.runtime) body = inr (23, 86.5)%float.
Proof.
  intros body.
  apply (parse_coordinates_aliases (H := Sample.runtime) body (VInt 23) (VFloat 86.5)).
  - right. split; reflexivity.
  - left. reflexivity.
  - vm_compute. reflexivity.
  - reflexivity.
Defined.

Lemma predict_answers_witness :
  let body : gmap string pyval := {[ "lat" := VInt 10; "lon" := VInt 20 ]} in
  Main.parse_coordinates (H := Sample.runtime) body = inr (10, 20)%float /\
  Main.status_of (Main.predict (H := Sample.runtime) (Sample.offline 0.9) body).1 = 200.
Proof.
  intros body.
  assert (Hcoords : Main.parse_coordinates (H := Sample.runtime) body = inr (10, 20)%float)
    by (vm_compute; reflexivity).
  split; [exact Hcoords|].
  destruct (predict_answers (H := Sample.runtime) (Sample.offline 0.9) body 10 20 Hcoords)
    as (vec & _ & _ & _ & Hok).
  exact (proj1 (proj2 (Hok (fun _ => Returns 0.9%float) 0.9%float eq_refl eq_refl))).
Defined.

Lemma predict_skips_supplied_lookups_witness :
  let body : gmap string pyval :=
    {[ "lat" := VInt 10; "lon" := VInt 20; "slope" := VInt 40 ]} in
  is_none (dict_get body "slope") = false /\
  GetSlope 10 20 ∉ (Main.predict (H := Sample.runtime) (Sample.offline 0.9) body).2.
Proof.
  intros body.
  assert (Hgiven : is_none (dict_get body "slope") = false) by reflexivity.
  split; [exact Hgiven|].
  exact (proj1 (predict_skips_supplied_lookups (H := Sample.runtime)
                  (Sample.offline 0.9) body) Hgiven 10%float 20%float).
Defined.


Lemma degraded_features_witness :
  let body : gmap string pyval := {[ "lat" := VInt 10; "lon" := VInt 20 ]} in
  (Main.resolve_features (H := Sample.runtime) (Sample.offline 0.9) body 10 20).1
    !! "displacement_rate" = Some (VFloat 0.3).
Proof.
  intros body.
  refine (proj1 (proj2 (proj2 (proj2 (proj2
            (degraded_features (H := Sample.runtime) (Sample.offline 0.9) body 10 20
               _ _ eq_refl eq_refl eq_refl)))))).
  - vm_compute. reflexivity.
  - intros key Hkey.
    repeat (apply elem_of_cons in Hkey as [->|Hkey]; [reflexivity|]).
    by apply elem_of_nil in Hkey.
Defined.

Lemma weather_snapshot_keys_read_witness :
  let body : gmap string pyval := {[ "lat" := VInt 10; "lon" := VInt 20 ]} in
  let W := Sample.with_weather (VDict {[ "temp" := VFloat 5.0; "humidity" := VInt 80 ]}) 0.9 in
  let W' := Sample.with_weather
              (VDict {[ "temp" := VFloat 5.0; "humidity" := VInt 10;
                        "rain" := VDict {[ "3h" := VInt 9 ]} ]}) 0.9 in
  (Main.resolve_features (H := Sample.runtime) W body 10 20).1 =
  (Main.resolve_features (H := Sample.runtime) W' body 10 20).1.
Proof.
  intros body W W'.
  apply weather_snapshot_keys_read; [|reflexivity..].
  intros key Hkey.
  repeat (apply elem_of_cons in Hkey as [->|Hkey]; [reflexivity|]).
  by apply elem_of_nil in Hkey.
Defined.

Lemma displacement_rate_floor_witness :
  let body : gmap string pyval :=
    {[ "lat" := VInt 10; "lon" := VInt 20; "slope" := VInt (-5) ]} in
  exists rate,
    (Main.resolve_features (H := Sample.runtime) (Sample.offline 0.9) body 10 20).1
      !! "displacement_rate" = Some (VFloat rate) /\
    (0.01 <=? rate)%float = true.
Proof.
  intros body.
  apply displacement_rate_floor.
  - vm_compute. reflexivity.
  - reflexivity.
  - reflexivity.
Defined.

Lemma vibration_endpoints_agree_witness :
  let body : gmap string pyval := {[ "lat" := VInt 10; "lon" := VInt 20 ]} in
  let W := {| Main.fetch_openweather := fun _ _ => Raises;
              Main.get_slope := fun _ _ => Raises;
              Main.get_latest_sensor_state :=
                Returns (VDict {[ "vibration" := VStr "n/a"; "battery" := VInt 3 ]});
              Main.model := Sample.constant_model 0.9 |} in
  exists v,
    Sensors.vibration (H := Sample.runtime) W =
      (Returns {[ "vibration" := VFloat v ]}, [GetLatestSensorState]) /\
    (Main.resolve_features (H := Sample.runtime) W body 10 20).1 !! "vibration" =
      Some (VFloat v).
Proof.
  intros body W.
  refine (proj1 (vibration_endpoints_agree (H := Sample.runtime) W body 10 20 _ _)
            _ eq_refl).
  - vm_compute. reflexivity.
  - reflexivity.
Defined.

Lemma weather_rain_without_dict_witness :
  Main.weather_summary_rainfall (H := Sample.runtime) Main.ONone
    (VDict {[ "rain" := VFloat 2.5 ]}) = Some (VFloat 0.0).
Proof.
  apply weather_rain_without_dict.
  - apply insert_non_empty.
  - right. exists (VFloat 2.5).
    split; [reflexivity|]. intros d Hd. discriminate Hd.
Defined.

Lemma weather_rain_from_dict_witness :
  Main.weather_summary_rainfall (H := Sample.runtime) Main.ONone
    (VDict {[ "rain" := VDict {[ "1h" := VFloat 0.4; "3h" := VInt 9 ]} ]}) =
    Some (VFloat 0.4).
Proof.
  exact (proj1 (weather_rain_from_dict (H := Sample.runtime) Main.ONone
                  {[ "rain" := VDict {[ "1h" := VFloat 0.4; "3h" := VInt 9 ]} ]}
                  {[ "1h" := VFloat 0.4; "3h" := VInt 9 ]} eq_refl) eq_refl).
Defined.

Lemma weather_nasa_fallback_witness :
  let series := Main.ODict [("20240101", Main.OFloat 1.5); ("20240102", Main.OFloat 4.25)] in
  let nasa_data :=
    Main.ODict [("properties",
                 Main.ODict [("parameter",
                              Main.ODict [("T2M", Main.ODict [("20240102", Main.OFloat 21.0)]);
                                          ("PRECTOTCORR", series)])])] in
  let nasa_data' :=
    Main.ODict [("properties",
                 Main.ODict [("parameter",
                              Main.ODict [("T2M", Main.OFloat 21.0);
                                          ("PRECTOTCORR", series)])])] in
  Main.weather_summary_rainfall (H := Sample.runtime) nasa_data (VDict ∅) =
    Some (VFloat 4.25) /\
  Main.weather_summary_rainfall (H := Sample.runtime) nasa_data' VNone = Some VNone.
Proof.
  intros series nasa_data nasa_data'.
  assert (Hempty : truthy (VDict ∅) = false) by (vm_compute; reflexivity).
  split.
  - destruct (weather_nasa_fallback (H := Sample.runtime) nasa_data (VDict ∅) Hempty)
      as [_ Hparameter].
    destruct (Hparameter _ eq_refl) as [_ Hseries].
    destruct (Hseries (or_intror (ex_intro _ _ eq_refl))) as [_ Hlast].
    exact (Hlast [("20240101", Main.OFloat 1.5)] "20240102" (Main.OFloat 4.25) eq_refl).
  - destruct (weather_nasa_fallback (H := Sample.runtime) nasa_data' VNone eq_refl)
      as [_ Hparameter].
    destruct (Hparameter _ eq_refl) as [Ht2m _].
    apply (Ht2m (Main.OFloat 21.0)); [reflexivity..|].
    intros entries Hentries. discriminate Hentries.
Defined.
